(** * confluence-action-store: the transport layer and the seven actions of
    [main_store.py], embedded in Rocq.

    Python values that come from or go to the wire are JSON values; Python
    dicts are finite maps ([gmap string _]); Python's [None] is [JNull].
    Exceptions are values of [Exception]; code that can raise returns in
    [Exc], and code that also talks to the remote runs in [M], which threads
    the list of requests issued so far.

    Three libraries the module calls are outside the repository: [requests]
    (the HTTP client), [pydantic] ([BaseModel]) and [kubiya] (the host that
    registers and calls the actions).  What the code relies on from them is
    written down where it is used and kept as a parameter wherever its
    behaviour is not fixed by the library's contract. *)

From stdpp Require Import base gmap strings list.
From Stdlib Require Import ZArith Ascii String DecimalString DecimalPos DecimalZ Lia.

Set Warnings "-register-all".
#[local] Open Scope Z_scope.

(** ** JSON values and the Python operations the module applies to them *)

(** [JFloat m e] is the number [m * 10^e]; the module never computes with
    numbers, it only passes them on. *)
Inductive JSON :=
| JNull
| JBool (b : bool)
| JInt (n : Z)
| JFloat (m e : Z)
| JStr (s : string)
| JList (l : list JSON)
| JDict (d : gmap string JSON).

Inductive Method := GET | POST.

Record Request := {
  req_method : Method;
  req_url : string;
  req_headers : gmap string string;
  (** the document handed to [json.dumps], when a body is sent *)
  req_data : option JSON
}.

(** A [requests.Response]: the status, the raw body and what
    [response.json()] gives ([None] when the body does not decode). *)
Record Response := {
  status_code : Z;
  text : string;
  json : option JSON
}.

Inductive Exception :=
| HTTPError (response : Response)
| JSONDecodeError
| RequestException (msg : string)
| KeyError (key : string)
| TypeError (msg : string)
| ValidationError (model : string) (errors : list string).

Definition Exc (A : Type) : Type := Exception + A.

#[global] Instance Exc_ret : MRet Exc := λ A x, inr x.
#[global] Instance Exc_bind : MBind Exc :=
  λ A B f m, match m with inl e => inl e | inr x => f x end.
#[global] Instance Exc_fmap : FMap Exc :=
  λ A B f m, match m with inl e => inl e | inr x => inr (f x) end.

Definition type_name (v : JSON) : string :=
  match v with
  | JNull => "NoneType"
  | JBool _ => "bool"
  | JInt _ => "int"
  | JFloat _ _ => "float"
  | JStr _ => "str"
  | JList _ => "list"
  | JDict _ => "dict"
  end.

(** [v[key]] with a string key. *)
Definition getitem (v : JSON) (key : string) : Exc JSON :=
  match v with
  | JDict d => match d !! key with Some x => inr x | None => inl (KeyError key) end
  | JList _ => inl (TypeError "list indices must be integers or slices, not str")
  | JStr _ => inl (TypeError "string indices must be integers")
  | _ => inl (TypeError ("'" +:+ type_name v +:+ "' object is not subscriptable"))
  end.

(** [v[key] = x] with a string key; a dict is updated at that key. *)
Definition setitem (v : JSON) (key : string) (x : JSON) : Exc JSON :=
  match v with
  | JDict d => inr (JDict (<[key := x]> d))
  | JList _ => inl (TypeError "list indices must be integers or slices, not str")
  | _ => inl (TypeError ("'" +:+ type_name v +:+ "' object does not support item assignment"))
  end.

Fixpoint chars (s : string) : list JSON :=
  match s with
  | EmptyString => []
  | String c s' => JStr (String c EmptyString) :: chars s'
  end.

(** [for x in v]: a list gives its items, a dict its keys, a str its
    characters; nothing else is iterable. *)
Definition iterate (v : JSON) : Exc (list JSON) :=
  match v with
  | JList l => inr l
  | JDict d => inr (JStr <$> (map_to_list d).*1)
  | JStr s => inr (chars s)
  | _ => inl (TypeError ("'" +:+ type_name v +:+ "' object is not iterable"))
  end.

(** [v == s] for a str literal [s]. *)
Definition eq_str (v : JSON) (s : string) : bool :=
  match v with
  | JStr t => bool_decide (t = s)
  | _ => false
  end.

(** [[x for x in xs if cond(x)]], where [cond] can raise. *)
Fixpoint filter_comp (cond : JSON → Exc bool) (xs : list JSON) : Exc (list JSON) :=
  match xs with
  | [] => inr []
  | x :: xs' =>
      b ← cond x;
      rest ← filter_comp cond xs';
      mret (if b : bool then x :: rest else rest)
  end.

(** [[f(x) for x in xs]], where [f] can raise. *)
Fixpoint map_comp {B} (f : JSON → Exc B) (xs : list JSON) : Exc (list B) :=
  match xs with
  | [] => inr []
  | x :: xs' =>
      y ← f x;
      rest ← map_comp f xs';
      mret (y :: rest)
  end.

(** [str(x)] for an int and [f"{x}"] for an [Optional[str]]. *)
Definition str_int (z : Z) : string := NilZero.string_of_int (Z.to_int z).

Definition format_opt (o : option string) : string := default "None" o.

Definition of_opt (o : option string) : JSON :=
  match o with Some s => JStr s | None => JNull end.

(** ** base64.b64encode, on byte strings *)

Definition b64_alphabet : string :=
  "ABCDEFGHIJKLMNOPQRSTUVWXYZabcdefghijklmnopqrstuvwxyz0123456789+/".

Definition b64_digit (n : N) : ascii :=
  default "="%char (String.get (N.to_nat n) b64_alphabet).

Fixpoint b64encode (s : string) : string :=
  match s with
  | EmptyString => EmptyString
  | String a EmptyString =>
      let x := N_of_ascii a in
      String (b64_digit (x / 4)) (String (b64_digit (x mod 4 * 16)) "==")
  | String a (String b EmptyString) =>
      let x := N_of_ascii a in
      let y := N_of_ascii b in
      String (b64_digit (x / 4))
        (String (b64_digit (x mod 4 * 16 + y / 16))
           (String (b64_digit (y mod 16 * 4)) "="))
  | String a (String b (String c rest)) =>
      let x := N_of_ascii a in
      let y := N_of_ascii b in
      let z := N_of_ascii c in
      String (b64_digit (x / 4))
        (String (b64_digit (x mod 4 * 16 + y / 16))
           (String (b64_digit (y mod 16 * 4 + z / 64))
              (String (b64_digit (z mod 64)) (b64encode rest))))
  end%N.

(** ** The monad of the actions: exceptions and the log of requests *)

Definition M (A : Type) : Type := list Request → Exc A * list Request.

#[global] Instance M_ret : MRet M := λ A x log, (inr x, log).
#[global] Instance M_bind : MBind M :=
  λ A B f m log,
    match m log with
    | (inl e, log') => (inl e, log')
    | (inr x, log') => f x log'
    end.

Definition lift {A} (x : Exc A) : M A := λ log, (x, log).

(** [try: body except Exception as e: handler(e)]; every [Exception] here is
    a subclass of Python's [Exception]. *)
Definition try_except {A} (body : M A) (handler : Exception → M A) : M A :=
  λ log,
    match body log with
    | (inl e, log') => handler e log'
    | (inr x, log') => (inr x, log')
    end.

(** ** Transport layer *)

(** What an action finds around it: [os.environ], the secret store of the
    action store, and the remote as [requests.get] / [requests.post] see it
    (a request is answered by a response, or by an exception of the HTTP
    client: no connection, bad URL, ...). *)
Record World := {
  environ : gmap string string;
  secrets : gmap string string;
  send : Request → Exc Response
}.

Section Transport.

Variable w : World.

Definition get_confluence_email : option string := environ w !! "CONFLUENCE_EMAIL".

Definition get_base_url : option string := environ w !! "CONFLUENCE_BASE_URL".

Definition get_api_token : option string := secrets w !! "JIRA_API_TOKEN".

(** [f"Basic {base64.b64encode(f'{email}:{api_token}'.encode()).decode()}"] *)
Definition basic_auth (email api_token : option string) : string :=
  "Basic " +:+ b64encode (format_opt email +:+ ":" +:+ format_opt api_token).

(** [requests.get(url, headers=...)] and [requests.post(url, headers=...,
    data=...)]: one call, recorded in the log. *)
Definition requests_call (req : Request) : M Response :=
  λ log, (send w req, log ++ [req]).

(** [Response.raise_for_status] of requests: an [HTTPError] holding the
    response for a client error (400-499) or a server error (500-599),
    nothing for any other status. *)
Definition raise_for_status (response : Response) : Exc () :=
  if bool_decide (400 ≤ status_code response < 500) then inl (HTTPError response)
  else if bool_decide (500 ≤ status_code response < 600) then inl (HTTPError response)
  else inr ().

(** [response.json()] *)
Definition response_json (response : Response) : Exc JSON :=
  match json response with
  | Some v => inr v
  | None => inl JSONDecodeError
  end.

(** [json.dumps(data) if data else None]: [None] and the empty dict are
    falsy. *)
Definition dumps_if (data : option (gmap string JSON)) : option JSON :=
  match data with
  | Some d => if bool_decide (size d ≠ 0%nat) then Some (JDict d) else None
  | None => None
  end.

Definition post_request (endpoint : string) (data : option (gmap string JSON)) : Request :=
  let email := get_confluence_email in
  let api_token := get_api_token in
  let base_url := get_base_url in
  let headers : gmap string string :=
    {[ "Accept" := "application/json"; "Content-Type" := "application/json" ]} in
  let headers := <["Authorization" := basic_auth email api_token]> headers in
  {| req_method := POST;
     req_url := format_opt base_url +:+ endpoint;
     req_headers := headers;
     req_data := dumps_if data |}.

Definition post_wrapper (endpoint : string) (data : option (gmap string JSON)) : M JSON :=
  response ← requests_call (post_request endpoint data);
  _ ← lift (raise_for_status response);
  lift (response_json response).

Definition get_request (endpoint : string) : Request :=
  let email := get_confluence_email in
  let api_token := get_api_token in
  let base_url := get_base_url in
  let headers : gmap string string := {[ "Accept" := "application/json" ]} in
  let headers := <["Authorization" := basic_auth email api_token]> headers in
  {| req_method := GET;
     req_url := format_opt base_url +:+ endpoint;
     req_headers := headers;
     req_data := None |}.

Definition get_wrapper (endpoint : string) : M JSON :=
  response ← requests_call (get_request endpoint);
  _ ← lift (raise_for_status response);
  if bool_decide (status_code response ≠ 204) then lift (response_json response)
  else mret JNull.

End Transport.

(** ** Request and result models

  Each [BaseModel] subclass is a record with the declared fields.  An
  instance is built by validation, from a payload ([parse_obj]) or from
  keyword arguments ([__init__]): every declared field is looked up and
  validated, the failing fields are collected into one [ValidationError],
  and keys that are not declared fields are ignored (pydantic's default
  [extra] setting). *)

Module CreatePageRequest.
Record t := { spaceId : string; title : option string;
              parentId : option string; body : string }.
End CreatePageRequest.

Module SpaceParams.
Record t := { space_key : string }.
End SpaceParams.

Module ContentId.
Record t := { content_id : string }.
End ContentId.

Module ContentSummary.
Record t := { id : string; title : string; type : string }.
End ContentSummary.

Module GetAllContentResponse.
Record t := { results : list ContentSummary.t }.
End GetAllContentResponse.

Module SpaceSummary.
Record t := { id : string; key : string; name : string; type : string;
              status : string; description : option string }.
End SpaceSummary.

Module GetAllSpacesResponse.
Record t := { results : list SpaceSummary.t }.
End GetAllSpacesResponse.

Module GetAvailableParentsPayload.
Record t := { space_id : Z }.
End GetAvailableParentsPayload.

(** What pydantic decides and the module does not: which values a [str] and
  an [int] field accept (and what they are converted to), and whether an
  [Optional[T]] field declared without a default has to be present
  (pydantic 2) or defaults to [None] (pydantic 1). *)
Record Pydantic := {
str_validator : JSON → option string;
int_validator : JSON → option Z;
optional_required : bool
}.

(** The validators that accept exactly the declared JSON type. *)
Definition exact_types : Pydantic :=
{| str_validator := λ v, match v with JStr s => Some s | _ => None end;
   int_validator := λ v, match v with JInt n => Some n | _ => None end;
   optional_required := false |}.

Section Models.

Variable P : Pydantic.

(** The outcome of one field: its value, or its name when it is in error. *)
Definition required {T} (validator : JSON → option T)
    (obj : gmap string JSON) (name : string) : string + T :=
  match obj !! name with
  | Some v => match validator v with Some x => inr x | None => inl name end
  | None => inl name
  end.

(** [name: Optional[T]] *)
Definition optional {T} (validator : JSON → option T)
    (obj : gmap string JSON) (name : string) : string + option T :=
  match obj !! name with
  | Some JNull => inr None
  | Some v => match validator v with Some x => inr (Some x) | None => inl name end
  | None => if optional_required P then inl name else inr None
  end.

(** [name: Optional[T] = None] *)
Definition optional_default {T} (validator : JSON → option T)
    (obj : gmap string JSON) (name : string) : string + option T :=
  match obj !! name with
  | Some JNull | None => inr None
  | Some v => match validator v with Some x => inr (Some x) | None => inl name end
  end.

Definition errors {T} (r : string + T) : list string :=
  match r with inl name => [name] | inr _ => [] end.

(** A model is validated from a dict; anything else is an error at the
    root. *)
Definition from_dict {T} (model : string) (validate : gmap string JSON → Exc T)
    (v : JSON) : Exc T :=
  match v with
  | JDict obj => validate obj
  | _ => inl (ValidationError model ["__root__"])
  end.

Definition CreatePageRequest_init (obj : gmap string JSON) : Exc CreatePageRequest.t :=
  match required (str_validator P) obj "spaceId",
        optional (str_validator P) obj "title",
        optional (str_validator P) obj "parentId",
        required (str_validator P) obj "body" with
  | inr spaceId, inr title, inr parentId, inr body =>
      inr (CreatePageRequest.Build_t spaceId title parentId body)
  | r1, r2, r3, r4 =>
      inl (ValidationError "CreatePageRequest"
             (errors r1 ++ errors r2 ++ errors r3 ++ errors r4))
  end.

Definition SpaceParams_init (obj : gmap string JSON) : Exc SpaceParams.t :=
  match required (str_validator P) obj "space_key" with
  | inr space_key => inr (SpaceParams.Build_t space_key)
  | r1 => inl (ValidationError "SpaceParams" (errors r1))
  end.

Definition ContentId_init (obj : gmap string JSON) : Exc ContentId.t :=
  match required (str_validator P) obj "content_id" with
  | inr content_id => inr (ContentId.Build_t content_id)
  | r1 => inl (ValidationError "ContentId" (errors r1))
  end.

Definition GetAvailableParentsPayload_init (obj : gmap string JSON)
    : Exc GetAvailableParentsPayload.t :=
  match required (int_validator P) obj "space_id" with
  | inr space_id => inr (GetAvailableParentsPayload.Build_t space_id)
  | r1 => inl (ValidationError "GetAvailableParentsPayload" (errors r1))
  end.

Definition ContentSummary_init (obj : gmap string JSON) : Exc ContentSummary.t :=
  match required (str_validator P) obj "id",
        required (str_validator P) obj "title",
        required (str_validator P) obj "type" with
  | inr id, inr title, inr type => inr (ContentSummary.Build_t id title type)
  | r1, r2, r3 =>
      inl (ValidationError "ContentSummary" (errors r1 ++ errors r2 ++ errors r3))
  end.

Definition SpaceSummary_init (obj : gmap string JSON) : Exc SpaceSummary.t :=
  match required (str_validator P) obj "id",
        required (str_validator P) obj "key",
        required (str_validator P) obj "name",
        required (str_validator P) obj "type",
        required (str_validator P) obj "status",
        optional_default (str_validator P) obj "description" with
  | inr id, inr key, inr name, inr type, inr status, inr description =>
      inr (SpaceSummary.Build_t id key name type status description)
  | r1, r2, r3, r4, r5, r6 =>
      inl (ValidationError "SpaceSummary"
             (errors r1 ++ errors r2 ++ errors r3 ++ errors r4 ++ errors r5 ++ errors r6))
  end.

(** [GetAllContentResponse(results=..., message=...)]: [results] is
    validated as [List[ContentSummary]]; [message] is not a declared field
    and is dropped. *)
Definition GetAllContentResponse_init (results : JSON) (message : option string)
    : Exc GetAllContentResponse.t :=
  match results with
  | JList items =>
      match map_comp (from_dict "ContentSummary" ContentSummary_init) items with
      | inr summaries => inr (GetAllContentResponse.Build_t summaries)
      | inl _ => inl (ValidationError "GetAllContentResponse" ["results"])
      end
  | _ => inl (ValidationError "GetAllContentResponse" ["results"])
  end.

(** [GetAllSpacesResponse(results=..., message=...)], called with a list of
    [SpaceSummary] instances: [results] is the only declared field;
    [message] is dropped. *)
Definition GetAllSpacesResponse_init (results : list SpaceSummary.t)
    (message : option string) : GetAllSpacesResponse.t :=
  GetAllSpacesResponse.Build_t results.

End Models.

(** ** Actions *)

Section Actions.

Variable w : World.
Variable P : Pydantic.
(** [str(e)]: the text of an exception is the raising library's. *)
Variable str_exc : Exception → string.

Definition create_page_data (params : CreatePageRequest.t) : gmap string JSON :=
  {[ "spaceId" := JStr (CreatePageRequest.spaceId params);
     "status" := JStr "current";
     "title" := of_opt (CreatePageRequest.title params);
     "parentId" := of_opt (CreatePageRequest.parentId params);
     "body" := JDict {[ "representation" := JStr "storage";
                        "value" := JStr (CreatePageRequest.body params) ]} ]}.

Definition create_page (params : CreatePageRequest.t) : M JSON :=
  let endpoint := "/wiki/api/v2/pages" in
  let data := create_page_data params in
  response ← post_wrapper w endpoint (Some data);
  mret response.

Definition get_parent_id (params : ContentId.t) : M JSON :=
  get_wrapper w ("/wiki/rest/api/content/" +:+ ContentId.content_id params
                 +:+ "?expand=ancestors").

Definition get_space_id (params : SpaceParams.t) : M JSON :=
  get_wrapper w ("/wiki/rest/api/space/" +:+ SpaceParams.space_key params).

Definition get_all_content (_ : JSON) : M GetAllContentResponse.t :=
  let endpoint := "/wiki/rest/api/content" in
  try_except
    (response ← get_wrapper w endpoint;
     results ← lift (getitem response "results");
     lift (GetAllContentResponse_init P results None))
    (λ e, lift (GetAllContentResponse_init P (JList []) (Some (str_exc e)))).

Definition get_space_details (request : SpaceParams.t) : M JSON :=
  let endpoint := "/wiki/rest/api/space/" +:+ SpaceParams.space_key request in
  try_except
    (response ← get_wrapper w endpoint;
     mret response)
    (λ e, mret (JDict {[ "message" := JStr (str_exc e) ]})).

(** [SpaceSummary(id=space["id"], key=space["key"], name=space["name"],
    type=space["type"], status=space["status"])] *)
Definition space_summary (space : JSON) : Exc SpaceSummary.t :=
  id ← getitem space "id";
  key ← getitem space "key";
  name ← getitem space "name";
  type ← getitem space "type";
  status ← getitem space "status";
  SpaceSummary_init P
    {[ "id" := id; "key" := key; "name" := name; "type" := type; "status" := status ]}.

Definition get_all_spaces (_ : JSON) : M GetAllSpacesResponse.t :=
  let endpoint := "/wiki/rest/api/space" in
  try_except
    (response ← get_wrapper w endpoint;
     spaces ← lift (getitem response "results" ≫= iterate);
     results ← lift (map_comp space_summary spaces);
     mret (GetAllSpacesResponse_init results None))
    (λ e, mret (GetAllSpacesResponse_init [] (Some (str_exc e)))).

(** [page["status"] == "current"] *)
Definition is_current (page : JSON) : Exc bool :=
  status ← getitem page "status";
  mret (eq_str status "current").

(** The body of the [try] of [get_available_parents]. *)
Definition get_available_parents_try (request : GetAvailableParentsPayload.t) : M JSON :=
  let endpoint := "/wiki/api/v2/spaces/"
                    +:+ str_int (GetAvailableParentsPayload.space_id request)
                    +:+ "/pages" in
  response ← get_wrapper w endpoint;
  pages ← lift (getitem response "results");
  current_pages ← lift (iterate pages ≫= filter_comp is_current);
  lift (setitem response "results" (JList current_pages)).

Definition get_available_parents (request : GetAvailableParentsPayload.t) : M JSON :=
  try_except
    (get_available_parents_try request)
    (λ e, mret (JDict {[ "message" := JStr (str_exc e) ]})).

(** *** The actions as the host calls them

    [kubiya_action()] registers the function under its name.  The host
    calls an action with a payload; the parameter annotated with a model
    class is built from the payload by that class before the function
    body runs, and the parameter annotated [Any] receives the payload as
    it is. *)

Inductive Action :=
| a_create_page
| a_get_parent_id
| a_get_space_id
| a_get_all_content
| a_get_space_details
| a_get_all_spaces
| a_get_available_parents.

Inductive Result :=
| r_json (v : JSON)
| r_content (r : GetAllContentResponse.t)
| r_spaces (r : GetAllSpacesResponse.t).

Definition call {T R} (model : string) (init : gmap string JSON → Exc T)
    (action : T → M R) (wrap : R → Result) (payload : JSON) : M Result :=
  params ← lift (from_dict model init payload);
  result ← action params;
  mret (wrap result).

Definition execute (a : Action) (payload : JSON) : M Result :=
  match a with
  | a_create_page =>
      call "CreatePageRequest" (CreatePageRequest_init P) create_page r_json payload
  | a_get_parent_id =>
      call "ContentId" (ContentId_init P) get_parent_id r_json payload
  | a_get_space_id =>
      call "SpaceParams" (SpaceParams_init P) get_space_id r_json payload
  | a_get_all_content =>
      result ← get_all_content payload; mret (r_content result)
  | a_get_space_details =>
      call "SpaceParams" (SpaceParams_init P) get_space_details r_json payload
  | a_get_all_spaces =>
      result ← get_all_spaces payload; mret (r_spaces result)
  | a_get_available_parents =>
      call "GetAvailableParentsPayload" (GetAvailableParentsPayload_init P)
        get_available_parents r_json payload
  end.

(** The fields each action's parameter model declares without [Optional]
    and without a default. *)
Definition required_fields (a : Action) : list string :=
  match a with
  | a_create_page => ["spaceId"; "body"]
  | a_get_parent_id => ["content_id"]
  | a_get_space_id => ["space_key"]
  | a_get_space_details => ["space_key"]
  | a_get_available_parents => ["space_id"]
  | a_get_all_content | a_get_all_spaces => []
  end.

End Actions.

(** ** The transport as a whole, and data for the examples *)

(** The request a call of the transport sends, and the call itself:
    [get_wrapper] for GET, [post_wrapper] for POST. *)
Definition transport_request (w : World) (method : Method) (endpoint : string)
    (data : option (gmap string JSON)) : Request :=
  match method with
  | GET => get_request w endpoint
  | POST => post_request w endpoint data
  end.

Definition transport (w : World) (method : Method) (endpoint : string)
    (data : option (gmap string JSON)) : M JSON :=
  match method with
  | GET => get_wrapper w endpoint
  | POST => post_wrapper w endpoint data
  end.

(** [page["status"] == "current"] where it does not raise. *)
Definition current_status (page : JSON) : bool :=
  match getitem page "status" with
  | inr status => eq_str status "current"
  | inl _ => false
  end.

(** A configured site whose remote answers every request with [r]. *)
Definition answering (r : Response) : World :=
  {| environ := {[ "CONFLUENCE_EMAIL" := "bot@example.com";
                   "CONFLUENCE_BASE_URL" := "https://example.atlassian.net" ]};
     secrets := {[ "JIRA_API_TOKEN" := "s3cret" ]};
     send := λ _, inr r |}.

Definition no_content : Response :=
  {| status_code := 204; text := ""; json := None |}.


Definition not_found : Response :=
  {| status_code := 404; text := "{}"; json := Some (JDict ∅) |}.

(** 300 Multiple Choices, with a JSON body. *)
Definition multiple_choices : Response :=
  {| status_code := 300; text := "{}"; json := Some (JDict ∅) |}.

Definition ok (v : JSON) : Response :=
  {| status_code := 200; text := ""; json := Some v |}.

Definition other_space : JSON :=
  JDict {[ "id" := JInt 98; "key" := JStr "OPS"; "name" := JStr "Operations" ]}.

Definition described_space : JSON :=
  JDict {[ "id" := JStr "1"; "key" := JStr "S1"; "name" := JStr "Space One";
           "type" := JStr "global"; "status" := JStr "current";
           "description" := JStr "The first space" ]}.

Definition one_space : JSON := JDict {[ "results" := JList [ described_space ] ]}.

Definition page (id status : string) : JSON :=
  JDict {[ "id" := JStr id; "status" := JStr status ]}.

Definition two_pages : JSON :=
  JDict {[ "results" := JList [ page "1" "current"; page "2" "draft" ];
           "_links" := JDict {[ "next" := JStr "/wiki/api/v2/spaces/7/pages?cursor=x" ]} ]}.

Definition sample_page : CreatePageRequest.t :=
  {| CreatePageRequest.spaceId := "7"; CreatePageRequest.title := Some "Notes";
     CreatePageRequest.parentId := None; CreatePageRequest.body := "<p>Hello &amp; welcome</p>" |}.

Definition plain_str (e : Exception) : string :=
  match e with
  | HTTPError r => str_int (status_code r) +:+ " Error"
  | JSONDecodeError => "Expecting value"
  | RequestException msg => msg
  | KeyError k => "'" +:+ k +:+ "'"
  | TypeError msg => msg
  | ValidationError model _ => "validation error for " +:+ model
  end.

(** A computation that sends nothing, and one that sends exactly [req]. *)
Definition silent {A} (m : M A) : Prop := ∀ log, snd (m log) = log.

Definition sends {A} (m : M A) (req : Request) : Prop :=
  ∀ log, snd (m log) = log ++ [req].

(** A configured site whose HTTP client fails with [e] on every call. *)
Definition failing (e : Exception) : World :=
  {| environ := {[ "CONFLUENCE_EMAIL" := "bot@example.com";
                   "CONFLUENCE_BASE_URL" := "https://example.atlassian.net" ]};
     secrets := {[ "JIRA_API_TOKEN" := "s3cret" ]};
     send := λ _, inl e |}.

(** A site with no environment variable and no secret set. *)
Definition unconfigured (r : Response) : World :=
  {| environ := ∅; secrets := ∅; send := λ _, inr r |}.

(** The endpoint of each action's request. *)
Definition content_endpoint (params : ContentId.t) : string :=
  "/wiki/rest/api/content/" +:+ ContentId.content_id params +:+ "?expand=ancestors".

Definition space_endpoint (params : SpaceParams.t) : string :=
  "/wiki/rest/api/space/" +:+ SpaceParams.space_key params.

Definition pages_endpoint (request : GetAvailableParentsPayload.t) : string :=
  "/wiki/api/v2/spaces/" +:+ str_int (GetAvailableParentsPayload.space_id request)
    +:+ "/pages".

Definition message_of (str_exc : Exception → string) (e : Exception) : JSON :=
  JDict {[ "message" := JStr (str_exc e) ]}.

Definition is_dict (v : JSON) : Prop := ∃ d, v = JDict d.

(** The field [name] of the entry [d] is accepted by the [str] validator
    and gives [value]. *)
Definition field_copied (P : Pydantic) (d : gmap string JSON) (name value : string)
    : Prop :=
  ∃ v, d !! name = Some v ∧ str_validator P v = Some value.

(** [summary] holds the five fields of the entry [space], and no
    description, whatever else the entry holds. *)
Definition summary_copies (P : Pydantic) (space : JSON) (summary : SpaceSummary.t)
    : Prop :=
  ∃ d, space = JDict d ∧
       field_copied P d "id" (SpaceSummary.id summary) ∧
       field_copied P d "key" (SpaceSummary.key summary) ∧
       field_copied P d "name" (SpaceSummary.name summary) ∧
       field_copied P d "type" (SpaceSummary.type summary) ∧
       field_copied P d "status" (SpaceSummary.status summary) ∧
       SpaceSummary.description summary = None.

Definition summarisable (P : Pydantic) (space : JSON) : Prop :=
  ∃ summary, summary_copies P space summary.

(** ** Examples *)

Example b64encode_Man : b64encode "Man" = "TWFu".
Proof. reflexivity. Qed.

Example b64encode_credentials : b64encode "a@b.c:tok" = "YUBiLmM6dG9r".
Proof. reflexivity. Qed.

Example b64encode_padding : b64encode "light w" = "bGlnaHQgdw==".
Proof. reflexivity. Qed.

Example get_request_authorization :
  req_headers (get_request (answering no_content) "/wiki/rest/api/space") !! "Authorization" =
  Some "Basic Ym90QGV4YW1wbGUuY29tOnMzY3JldA==".
Proof. vm_compute. reflexivity. Qed.

Example get_all_spaces_one_space :
  (λ r, SpaceSummary.key <$> GetAllSpacesResponse.results r)
    <$> fst (get_all_spaces (answering (ok one_space)) exact_types plain_str JNull []) =
  inr ["S1"].
Proof. vm_compute. reflexivity. Qed.

Example get_available_parents_two_pages :
  fst (get_available_parents (answering (ok two_pages)) plain_str
         {| GetAvailableParentsPayload.space_id := 7 |} []) =
  inr (JDict {[ "results" := JList [ page "1" "current" ];
                "_links" := JDict {[ "next" := JStr "/wiki/api/v2/spaces/7/pages?cursor=x" ]} ]}).
Proof. vm_compute. reflexivity. Qed.

Example get_available_parents_url :
  req_url <$> snd (get_available_parents (answering (ok two_pages)) plain_str
         {| GetAvailableParentsPayload.space_id := 7 |} []) =
  [ "https://example.atlassian.net/wiki/api/v2/spaces/7/pages" ].
Proof. vm_compute. reflexivity. Qed.

Example get_available_parents_no_content :
  fst (get_available_parents (answering no_content) plain_str
         {| GetAvailableParentsPayload.space_id := 7 |} []) =
  inr (JDict {[ "message" := JStr "'NoneType' object is not subscriptable" ]}).
Proof. vm_compute. reflexivity. Qed.

(** ** The transport layer *)

Ltac unfold_M :=
  unfold mbind, M_bind, mret, M_ret, lift, try_except, requests_call; simpl.

Lemma raise_for_status_error (r : Response) :
  400 ≤ status_code r ≤ 599 → raise_for_status r = inl (HTTPError r).
Proof.
  intros H. unfold raise_for_status.
  repeat case_bool_decide; try reflexivity; lia.
Qed.

Lemma raise_for_status_pass (r : Response) :
  ¬ 400 ≤ status_code r ≤ 599 → raise_for_status r = inr ().
Proof.
  intros H. unfold raise_for_status.
  repeat case_bool_decide; try reflexivity; lia.
Qed.

(** One run of [get_wrapper]: one request goes out, and the outcome is that
    of the client, then of [raise_for_status], then of the 204 test. *)
Lemma get_wrapper_run (w : World) (endpoint : string) (log : list Request) :
  get_wrapper w endpoint log =
  (match send w (get_request w endpoint) with
   | inl e => inl e
   | inr r =>
       match raise_for_status r with
       | inl e => inl e
       | inr _ => if bool_decide (status_code r ≠ 204) then response_json r else inr JNull
       end
   end, log ++ [get_request w endpoint]).
Proof.
  unfold get_wrapper. unfold_M.
  destruct (send w (get_request w endpoint)) as [e|r]; [reflexivity|].
  destruct (raise_for_status r); simpl; [reflexivity|].
  case_bool_decide; reflexivity.
Qed.

Lemma post_wrapper_run (w : World) (endpoint : string)
    (data : option (gmap string JSON)) (log : list Request) :
  post_wrapper w endpoint data log =
  (match send w (post_request w endpoint data) with
   | inl e => inl e
   | inr r =>
       match raise_for_status r with
       | inl e => inl e
       | inr _ => response_json r
       end
   end, log ++ [post_request w endpoint data]).
Proof.
  unfold post_wrapper. unfold_M.
  destruct (send w (post_request w endpoint data)) as [e|r]; [reflexivity|].
  destruct (raise_for_status r); reflexivity.
Qed.

(** On a 204 response [get_wrapper] returns [None]. *)
Lemma get_wrapper_no_content (w : World) (endpoint : string) (r : Response)
    (log : list Request) :
  send w (get_request w endpoint) = inr r →
  status_code r = 204 →
  fst (get_wrapper w endpoint log) = inr JNull.
Proof.
  intros Hsend Hst. rewrite get_wrapper_run, Hsend. simpl.
  rewrite raise_for_status_pass by lia.
  case_bool_decide; [contradiction | reflexivity].
Qed.

(** On every other status that is no client or server error, both wrappers
    return what [response.json()] gives. *)
Lemma transport_decodes (w : World) (method : Method) (endpoint : string)
    (data : option (gmap string JSON)) (r : Response) (log : list Request) :
  send w (transport_request w method endpoint data) = inr r →
  ¬ 400 ≤ status_code r ≤ 599 →
  status_code r ≠ 204 →
  fst (transport w method endpoint data log) = response_json r.
Proof.
  intros Hsend Hst H204. destruct method; simpl in *.
  - rewrite get_wrapper_run, Hsend. simpl.
    rewrite raise_for_status_pass by assumption.
    case_bool_decide; [reflexivity | contradiction].
  - rewrite post_wrapper_run, Hsend. simpl.
    rewrite raise_for_status_pass by assumption. reflexivity.
Qed.

(** C2, at the failing input: a POST answered with 204 and an empty body
    does not return [None]; [post_wrapper] has no test for 204 and calls
    [response.json()], which raises on the empty body. *)
Theorem post_wrapper_no_content_raises (w : World) (endpoint : string)
    (data : option (gmap string JSON)) (r : Response) (log : list Request) :
  send w (post_request w endpoint data) = inr r →
  status_code r = 204 →
  json r = None →
  fst (post_wrapper w endpoint data log) = inl JSONDecodeError.
Proof.
  intros Hsend Hst Hjson. rewrite post_wrapper_run, Hsend. simpl.
  rewrite raise_for_status_pass by lia.
  unfold response_json. rewrite Hjson. reflexivity.
Qed.

Lemma post_wrapper_no_content_raises_witness :
  (send (answering no_content)
     (post_request (answering no_content) "/wiki/api/v2/pages"
        (Some (create_page_data sample_page))) = inr no_content ∧
   status_code no_content = 204 ∧
   json no_content = None) ∧
  fst (post_wrapper (answering no_content) "/wiki/api/v2/pages"
         (Some (create_page_data sample_page)) []) = inl JSONDecodeError.
Proof.
  split; [repeat split |].
  apply (post_wrapper_no_content_raises (answering no_content) "/wiki/api/v2/pages"
           (Some (create_page_data sample_page)) no_content []); reflexivity.
Defined.

(** C6, as stated, fails on a status outside 200-299 that is no client or
    server error: a GET answered with 300 and a JSON body returns the body
    and raises nothing. *)
Lemma transport_300_no_error :
  ¬ 200 ≤ status_code multiple_choices ≤ 299 ∧
  fst (transport (answering multiple_choices) GET "/wiki/rest/api/space" None []) =
  inr (JDict ∅).
Proof. split; [simpl; lia | reflexivity]. Qed.

(** C6, amended: when the remote answers, the transport (GET or POST) raises
    an [HTTPError] if and only if the status is in 400-599; the error holds
    the response, hence its status and body; on a 2xx status no [HTTPError]
    is raised. *)
Theorem transport_http_error_iff (w : World) (method : Method) (endpoint : string)
    (data : option (gmap string JSON)) (r : Response) (log : list Request) :
  send w (transport_request w method endpoint data) = inr r →
  ((∃ r', fst (transport w method endpoint data log) = inl (HTTPError r'))
     ↔ 400 ≤ status_code r ≤ 599) ∧
  (∀ r', fst (transport w method endpoint data log) = inl (HTTPError r') →
         r' = r ∧ ¬ 200 ≤ status_code r ≤ 299).
Proof.
  intros Hsend.
  assert (Hrun : fst (transport w method endpoint data log) =
                 match raise_for_status r with
                 | inl e => inl e
                 | inr _ =>
                     match method with
                     | GET => if bool_decide (status_code r ≠ 204)
                              then response_json r else inr JNull
                     | POST => response_json r
                     end
                 end).
  { destruct method; simpl in *.
    - rewrite get_wrapper_run, Hsend. reflexivity.
    - rewrite post_wrapper_run, Hsend. reflexivity. }
  rewrite Hrun. clear Hrun.
  destruct (decide (400 ≤ status_code r ≤ 599)) as [Herr|Hok].
  - rewrite raise_for_status_error by assumption. split.
    + split; [intros _; assumption | intros _; exists r; reflexivity].
    + intros r' Heq. injection Heq as <-. split; [reflexivity | lia].
  - rewrite raise_for_status_pass by assumption.
    assert (Hno : ∀ r', match method with
                        | GET => if bool_decide (status_code r ≠ 204)
                                 then response_json r else inr JNull
                        | POST => response_json r
                        end ≠ inl (HTTPError r')).
    { intros r'. unfold response_json.
      destruct method, (json r); try case_bool_decide; discriminate. }
    split.
    + split; [intros [r' Heq]; destruct (Hno r' Heq) | intros H; contradiction].
    + intros r' Heq. destruct (Hno r' Heq).
Qed.

Lemma transport_http_error_iff_witness :
  send (answering not_found)
    (transport_request (answering not_found) POST "/wiki/api/v2/pages"
       (Some (create_page_data sample_page))) = inr not_found ∧
  ((∃ r', fst (transport (answering not_found) POST "/wiki/api/v2/pages"
                 (Some (create_page_data sample_page)) []) = inl (HTTPError r'))
     ↔ 400 ≤ status_code not_found ≤ 599) ∧
  (∀ r', fst (transport (answering not_found) POST "/wiki/api/v2/pages"
                 (Some (create_page_data sample_page)) []) = inl (HTTPError r') →
         r' = not_found ∧ ¬ 200 ≤ status_code not_found ≤ 299).
Proof.
  split; [reflexivity |].
  apply (transport_http_error_iff (answering not_found) POST "/wiki/api/v2/pages"
           (Some (create_page_data sample_page)) not_found []).
  reflexivity.
Defined.

(** ** Actions that pass the transport's result on *)




(** C5, as stated, fails: no [SpaceDetails] is built, and the result is
    whatever the remote sent.  For a key the remote does not know (404) the
    call raises and returns nothing; on 204 it returns [None]; and asked for
    the space [DEV], a remote that answers with the space [OPS] makes
    [get_space_id] return a dict whose key is [OPS]. *)
Lemma get_space_id_other_key :
  fst (get_space_id (answering not_found) {| SpaceParams.space_key := "DEV" |} []) =
    inl (HTTPError not_found) ∧
  fst (get_space_id (answering no_content) {| SpaceParams.space_key := "DEV" |} []) =
    inr JNull ∧
  fst (get_space_id (answering (ok other_space)) {| SpaceParams.space_key := "DEV" |} []) =
    inr other_space ∧
  getitem other_space "key" = inr (JStr "OPS").
Proof. repeat split; vm_compute; reflexivity. Qed.

(** C5, amended: for every space key, [get_space_id] performs exactly one
    request, a GET to the base URL followed by [/wiki/rest/api/space/{key}];
    when the response is no client or server error, is not 204 and its body
    decodes, the result is the decoded body unchanged, so its [key] field is
    the one the remote sent. *)
Theorem get_space_id_one_get (w : World) (params : SpaceParams.t) (log : list Request) :
  (∃ req, snd (get_space_id w params log) = log ++ [req] ∧
          req_method req = GET ∧
          req_url req = format_opt (get_base_url w) +:+ "/wiki/rest/api/space/"
                          +:+ SpaceParams.space_key params ∧
          ∀ r v, send w req = inr r →
                 ¬ 400 ≤ status_code r ≤ 599 →
                 status_code r ≠ 204 →
                 json r = Some v →
                 fst (get_space_id w params log) = inr v).
Proof.
  exists (get_request w ("/wiki/rest/api/space/" +:+ SpaceParams.space_key params)).
  unfold get_space_id. rewrite get_wrapper_run. simpl.
  repeat split.
  intros r v Hsend Hst H204 Hjson. rewrite Hsend.
  rewrite raise_for_status_pass by assumption.
  case_bool_decide; [| contradiction].
  unfold response_json. rewrite Hjson. reflexivity.
Qed.

Lemma get_space_id_one_get_witness :
  ∃ req, snd (get_space_id (answering (ok other_space))
                {| SpaceParams.space_key := "OPS" |} []) = [req] ∧
         req_method req = GET ∧
         req_url req = "https://example.atlassian.net/wiki/rest/api/space/OPS" ∧
         fst (get_space_id (answering (ok other_space))
                {| SpaceParams.space_key := "OPS" |} []) = inr other_space.
Proof.
  destruct (get_space_id_one_get (answering (ok other_space))
              {| SpaceParams.space_key := "OPS" |} [])
    as (req & Hlog & Hmethod & Hurl & Hres).
  exists req.
  split; [exact Hlog |]. split; [exact Hmethod |]. split; [exact Hurl |].
  assert (Hreq : req = get_request (answering (ok other_space))
                         "/wiki/rest/api/space/OPS").
  { injection Hlog as <-. reflexivity. }
  apply (Hres (ok other_space) other_space);
    first [rewrite Hreq; reflexivity | reflexivity | simpl; lia].
Defined.

(** ** create_page *)

Lemma create_page_data_truthy (params : CreatePageRequest.t) :
  dumps_if (Some (create_page_data params)) = Some (JDict (create_page_data params)).
Proof.
  unfold dumps_if. case_bool_decide as Hsize; [reflexivity |].
  apply map_size_empty_iff in Hsize.
  destruct (insert_non_empty _ _ _ Hsize).
Qed.

(** [create_page] sends exactly one request, the POST of its [data]. *)
Lemma create_page_requests (w : World) (params : CreatePageRequest.t)
    (log : list Request) :
  snd (create_page w params log) =
  log ++ [post_request w "/wiki/api/v2/pages" (Some (create_page_data params))].
Proof.
  unfold create_page, mbind, M_bind. rewrite post_wrapper_run.
  destruct (send w _) as [e|r]; [reflexivity |].
  destruct (raise_for_status r); [reflexivity |].
  destruct (response_json r); reflexivity.
Qed.

(** C4: for every [CreatePageRequest], the JSON body [create_page] sends
    with its POST has [body.value] equal to the request's [body] field and
    [body.representation] equal to ["storage"]. *)
Theorem create_page_body_verbatim (w : World) (params : CreatePageRequest.t)
    (log : list Request) :
  ∃ req doc body,
    snd (create_page w params log) = log ++ [req] ∧
    req_method req = POST ∧
    req_url req = format_opt (get_base_url w) +:+ "/wiki/api/v2/pages" ∧
    req_data req = Some doc ∧
    getitem doc "body" = inr body ∧
    getitem body "value" = inr (JStr (CreatePageRequest.body params)) ∧
    getitem body "representation" = inr (JStr "storage").
Proof.
  eexists _, _, _. rewrite create_page_requests.
  split; [reflexivity |]. split; [reflexivity |]. split; [reflexivity |].
  split; [exact (create_page_data_truthy params) |].
  repeat split; reflexivity.
Qed.

(** C9: for every [CreatePageRequest], the body [create_page] sends has the
    field [status] with value ["current"]; and whatever payload the host
    passes, either validation fails and nothing is sent, or the one request
    sent carries [status = "current"]. *)
Theorem create_page_status_current (w : World) (P : Pydantic)
    (str_exc : Exception → string) (log : list Request) :
  (∀ params, ∃ req doc,
      snd (create_page w params log) = log ++ [req] ∧
      req_data req = Some doc ∧
      getitem doc "status" = inr (JStr "current")) ∧
  (∀ payload,
      snd (execute w P str_exc a_create_page payload log) = log ∨
      ∃ req doc,
        snd (execute w P str_exc a_create_page payload log) = log ++ [req] ∧
        req_data req = Some doc ∧
        getitem doc "status" = inr (JStr "current")).
Proof.
  assert (Hsent : ∀ params, ∃ req doc,
      snd (create_page w params log) = log ++ [req] ∧
      req_data req = Some doc ∧
      getitem doc "status" = inr (JStr "current")).
  { intros params. eexists _, _. rewrite create_page_requests.
    split; [reflexivity |].
    split; [exact (create_page_data_truthy params) | reflexivity]. }
  split; [exact Hsent |].
  intros payload. unfold execute, call, mbind, M_bind, lift.
  destruct (from_dict "CreatePageRequest" (CreatePageRequest_init P) payload)
    as [e|params]; [left; reflexivity |].
  right. destruct (Hsent params) as (req & doc & Hlog & Hdata & Hstatus).
  exists req, doc. repeat split; try assumption.
  destruct (create_page w params log) as [[e|v] log']; simpl in *; assumption.
Qed.

(** ** get_all_spaces *)

Lemma map_comp_Forall {B} (f : JSON → Exc B) (Q : B → Prop) (xs : list JSON)
    (ys : list B) :
  (∀ x y, f x = inr y → Q y) →
  map_comp f xs = inr ys →
  Forall Q ys.
Proof.
  intros Hf. revert ys.
  induction xs as [|x xs IH]; intros ys Hmap; simpl in Hmap.
  - injection Hmap as <-. constructor.
  - unfold mbind, Exc_bind, mret, Exc_ret in Hmap.
    destruct (f x) as [e|y] eqn:Hx; [discriminate |].
    destruct (map_comp f xs) as [e|rest]; [discriminate |].
    injection Hmap as <-. constructor; [eapply Hf, Hx | apply IH; reflexivity].
Qed.

(** The five keyword arguments leave [description] at its default. *)
Lemma space_summary_description (P : Pydantic) (space : JSON) (s : SpaceSummary.t) :
  space_summary P space = inr s → SpaceSummary.description s = None.
Proof.
  unfold space_summary, mbind, Exc_bind.
  destruct (getitem space "id") as [?|id]; [discriminate |].
  destruct (getitem space "key") as [?|key]; [discriminate |].
  destruct (getitem space "name") as [?|name]; [discriminate |].
  destruct (getitem space "type") as [?|type]; [discriminate |].
  destruct (getitem space "status") as [?|status]; [discriminate |].
  unfold SpaceSummary_init.
  assert (Hdescr : optional_default (str_validator P)
                     ({[ "id" := id; "key" := key; "name" := name;
                         "type" := type; "status" := status ]} : gmap string JSON)
                     "description" = inr None).
  { unfold optional_default. rewrite !lookup_insert_ne by discriminate.
    rewrite lookup_singleton_ne by discriminate. reflexivity. }
  rewrite Hdescr.
  repeat match goal with
         | |- context [required ?v ?o ?n] => destruct (required v o n)
         end;
    intros H; try discriminate H; injection H as <-; reflexivity.
Qed.

(** [get_all_spaces] always returns a result, and every [SpaceSummary] in it
    has no description. *)
Lemma get_all_spaces_returns (w : World) (P : Pydantic)
    (str_exc : Exception → string) (payload : JSON) (log : list Request) :
  ∃ r, fst (get_all_spaces w P str_exc payload log) = inr r ∧
       Forall (λ s, SpaceSummary.description s = None) (GetAllSpacesResponse.results r).
Proof.
  unfold get_all_spaces, try_except, mbind at 1 2 3, M_bind, lift, mret, M_ret.
  destruct (get_wrapper w "/wiki/rest/api/space" log) as [[e|response] log'].
  { eexists. split; [reflexivity | constructor]. }
  destruct (getitem response "results" ≫= iterate) as [e|spaces].
  { eexists. split; [reflexivity | constructor]. }
  destruct (map_comp (space_summary P) spaces) as [e|results] eqn:Hmap.
  { eexists. split; [reflexivity | constructor]. }
  eexists. split; [reflexivity |]. simpl.
  eapply map_comp_Forall; [| exact Hmap].
  intros x y. apply space_summary_description.
Qed.

Lemma map_comp_outcome {B} (f : JSON → Exc B) (xs : list JSON) :
  match map_comp f xs with
  | inr ys => Forall2 (λ x y, f x = inr y) xs ys
  | inl e => ∃ x, x ∈ xs ∧ f x = inl e
  end.
Proof.
  induction xs as [|x xs IH]; simpl; [constructor |].
  unfold mbind, Exc_bind, mret, Exc_ret.
  destruct (f x) as [e|y] eqn:Hx.
  - exists x. split; [apply list_elem_of_here | exact Hx].
  - destruct (map_comp f xs) as [e|ys].
    + destruct IH as (x' & Hin & Hx'). exists x'.
      split; [apply list_elem_of_further, Hin | exact Hx'].
    + constructor; assumption.
Qed.

(** What [space_summary] makes of one entry: the summary that copies the
    five fields, or an error when the entry has no such summary. *)
Lemma space_summary_outcome (P : Pydantic) (space : JSON) :
  match space_summary P space with
  | inr summary => summary_copies P space summary
  | inl _ => ¬ summarisable P space
  end.
Proof.
  destruct space as [| | | | |l|d];
    try (simpl; intros (summary & d' & Heq & _); discriminate Heq).
  unfold space_summary, getitem, mbind, Exc_bind.
  destruct (d !! "id") as [v1|] eqn:H1;
    [| intros (summary & d' & Heq & (v & Hv & _) & _); simplify_eq].
  destruct (d !! "key") as [v2|] eqn:H2;
    [| intros (summary & d' & Heq & _ & (v & Hv & _) & _); simplify_eq].
  destruct (d !! "name") as [v3|] eqn:H3;
    [| intros (summary & d' & Heq & _ & _ & (v & Hv & _) & _); simplify_eq].
  destruct (d !! "type") as [v4|] eqn:H4;
    [| intros (summary & d' & Heq & _ & _ & _ & (v & Hv & _) & _); simplify_eq].
  destruct (d !! "status") as [v5|] eqn:H5;
    [| intros (summary & d' & Heq & _ & _ & _ & _ & (v & Hv & _) & _); simplify_eq].
  unfold SpaceSummary_init, required, optional_default.
  rewrite lookup_insert_eq.
  repeat (rewrite lookup_insert_ne by discriminate; rewrite ?lookup_insert_eq).
  rewrite ?lookup_singleton_eq, ?lookup_singleton_ne by discriminate.
  destruct (str_validator P v1) as [id|] eqn:E1,
           (str_validator P v2) as [key|] eqn:E2,
           (str_validator P v3) as [name|] eqn:E3,
           (str_validator P v4) as [type|] eqn:E4,
           (str_validator P v5) as [status|] eqn:E5;
    simpl;
    try (intros (summary & d' & Heq & (a1 & Ha1 & Hb1) & (a2 & Ha2 & Hb2)
                 & (a3 & Ha3 & Hb3) & (a4 & Ha4 & Hb4) & (a5 & Ha5 & Hb5) & _);
         simplify_eq).
  exists d. split; [reflexivity |].
  repeat split; eexists; (split; [eassumption |]); assumption.
Qed.

(** The result of [get_all_spaces] on a response that carries a list. *)
Lemma get_all_spaces_listing (w : World) (P : Pydantic)
    (str_exc : Exception → string) (x : JSON) (log : list Request)
    (r : Response) (body : JSON) (spaces : list JSON) :
  send w (get_request w "/wiki/rest/api/space") = inr r →
  ¬ 400 ≤ status_code r ≤ 599 →
  status_code r ≠ 204 →
  json r = Some body →
  getitem body "results" = inr (JList spaces) →
  fst (get_all_spaces w P str_exc x log) =
    inr {| GetAllSpacesResponse.results :=
             match map_comp (space_summary P) spaces with
             | inr results => results
             | inl _ => []
             end |}.
Proof.
  intros Hsend Hst H204 Hjson Hresults.
  unfold get_all_spaces, try_except. unfold mbind at 1 2 3, M_bind, lift.
  rewrite get_wrapper_run, Hsend.
  rewrite raise_for_status_pass by assumption.
  case_bool_decide; [| contradiction].
  unfold response_json. rewrite Hjson.
  unfold mbind, Exc_bind. rewrite Hresults. simpl.
  destruct (map_comp (space_summary P) spaces); reflexivity.
Qed.

(** C10: [get_all_spaces] always returns a result and every [SpaceSummary]
    in it has no description.  For every successful response that carries
    a list of entries, the result has one [SpaceSummary] per entry, in
    order, each holding the entry's [id], [key], [name], [type] and
    [status] and no description, whether or not the entry has a
    [description] field; the one other outcome is an empty result, when some
    entry has no such summary. *)
Theorem get_all_spaces_no_description (w : World) (P : Pydantic)
    (str_exc : Exception → string) (payload : JSON) (log : list Request) :
  ∃ result,
    fst (get_all_spaces w P str_exc payload log) = inr result ∧
    Forall (λ s, SpaceSummary.description s = None)
      (GetAllSpacesResponse.results result) ∧
    ∀ r body spaces,
      send w (get_request w "/wiki/rest/api/space") = inr r →
      ¬ 400 ≤ status_code r ≤ 599 →
      status_code r ≠ 204 →
      json r = Some body →
      getitem body "results" = inr (JList spaces) →
      Forall2 (summary_copies P) spaces (GetAllSpacesResponse.results result) ∨
      (GetAllSpacesResponse.results result = [] ∧
       ∃ space, space ∈ spaces ∧ ¬ summarisable P space).
Proof.
  destruct (get_all_spaces_returns w P str_exc payload log) as (result & Hres & Hnone).
  exists result. split; [exact Hres |]. split; [exact Hnone |].
  intros r body spaces Hsend Hst H204 Hjson Hresults.
  rewrite (get_all_spaces_listing w P str_exc payload log r body spaces
             Hsend Hst H204 Hjson Hresults) in Hres.
  injection Hres as <-. simpl.
  pose proof (map_comp_outcome (space_summary P) spaces) as Hmap.
  destruct (map_comp (space_summary P) spaces) as [e|results].
  - right. split; [reflexivity |].
    destruct Hmap as (space & Hin & Hspace). exists space. split; [exact Hin |].
    pose proof (space_summary_outcome P space) as Hout.
    rewrite Hspace in Hout. exact Hout.
  - left. eapply Forall2_impl; [exact Hmap |].
    intros space summary Hspace.
    pose proof (space_summary_outcome P space) as Hout.
    rewrite Hspace in Hout. exact Hout.
Qed.

Lemma get_all_spaces_no_description_witness :
  ∃ result,
    fst (get_all_spaces (answering (ok one_space)) exact_types plain_str JNull []) =
      inr result ∧
    getitem described_space "description" = inr (JStr "The first space") ∧
    Forall2 (summary_copies exact_types) [described_space]
      (GetAllSpacesResponse.results result).
Proof.
  destruct (get_all_spaces_no_description (answering (ok one_space)) exact_types
              plain_str JNull [])
    as (result & Hres & _ & Hcopy).
  exists result. split; [exact Hres |]. split; [reflexivity |].
  destruct (Hcopy (ok one_space) one_space [described_space])
    as [Hall | [_ (space & Hin & Hnot)]];
    first [reflexivity | simpl; lia | idtac].
  - exact Hall.
  - apply list_elem_of_singleton in Hin. subst space. destruct Hnot.
    exists {| SpaceSummary.id := "1"; SpaceSummary.key := "S1";
              SpaceSummary.name := "Space One"; SpaceSummary.type := "global";
              SpaceSummary.status := "current"; SpaceSummary.description := None |}.
    eexists. split; [reflexivity |].
    repeat split; eexists; split; reflexivity.
Defined.

Example get_all_spaces_drops_description :
  getitem described_space "description" = inr (JStr "The first space") ∧
  fst (get_all_spaces (answering (ok one_space)) exact_types plain_str JNull []) =
  inr {| GetAllSpacesResponse.results :=
           [ {| SpaceSummary.id := "1"; SpaceSummary.key := "S1";
                SpaceSummary.name := "Space One"; SpaceSummary.type := "global";
                SpaceSummary.status := "current"; SpaceSummary.description := None |} ] |}.
Proof. split; vm_compute; reflexivity. Qed.

(** ** get_available_parents *)

Lemma is_current_current_status (page : JSON) (b : bool) :
  is_current page = inr b → current_status page = b.
Proof.
  unfold is_current, current_status, mbind, Exc_bind, mret, Exc_ret.
  destruct (getitem page "status"); [discriminate |].
  intros H. injection H as <-. reflexivity.
Qed.

Lemma current_status_true (page : JSON) :
  current_status page = true → getitem page "status" = inr (JStr "current").
Proof.
  unfold current_status.
  destruct (getitem page "status") as [e|status]; [discriminate |].
  destruct status; simpl; try discriminate.
  intros H. apply bool_decide_eq_true in H. subst. reflexivity.
Qed.

(** Where the comprehension does not raise, it is the filter. *)
Lemma filter_comp_is_current (items kept : list JSON) :
  filter_comp is_current items = inr kept →
  kept = List.filter current_status items.
Proof.
  revert kept. induction items as [|x items IH]; intros kept H; simpl in H.
  - injection H as <-. reflexivity.
  - unfold mbind, Exc_bind, mret, Exc_ret in H.
    destruct (is_current x) as [e|b] eqn:Hx; [discriminate |].
    destruct (filter_comp is_current items) as [e|rest]; [discriminate |].
    apply is_current_current_status in Hx.
    injection H as <-. simpl. rewrite Hx, <- (IH rest eq_refl).
    destruct b; reflexivity.
Qed.

(** [get_available_parents] never raises. *)
Lemma get_available_parents_returns (w : World) (str_exc : Exception → string)
    (request : GetAvailableParentsPayload.t) (log : list Request) :
  ∃ out, fst (get_available_parents w str_exc request log) = inr out.
Proof.
  unfold get_available_parents, try_except.
  destruct (get_available_parents_try w request log) as [[e|out] log'];
    eexists; reflexivity.
Qed.

(** An output with a [results] field is the response of the transport with
    [results] set to the filtered list. *)
Lemma get_available_parents_success (w : World) (str_exc : Exception → string)
    (request : GetAvailableParentsPayload.t) (log : list Request) (out res : JSON) :
  fst (get_available_parents w str_exc request log) = inr out →
  getitem out "results" = inr res →
  ∃ d pages items,
    fst (get_wrapper w ("/wiki/api/v2/spaces/"
                          +:+ str_int (GetAvailableParentsPayload.space_id request)
                          +:+ "/pages") log) = inr (JDict d) ∧
    d !! "results" = Some pages ∧
    iterate pages = inr items ∧
    res = JList (List.filter current_status items) ∧
    out = JDict (<["results" := res]> d).
Proof.
  unfold get_available_parents, try_except, get_available_parents_try.
  unfold mbind at 1 2 3, M_bind, lift.
  assert (Hmsg : ∀ e, getitem (JDict {[ "message" := JStr (str_exc e) ]}) "results"
                      ≠ inr res).
  { intros e. unfold getitem.
    rewrite lookup_singleton_ne by discriminate. discriminate. }
  destruct (get_wrapper w _ log) as [[e|response] log']; simpl.
  { intros H. injection H as <-. intros H. destruct (Hmsg _ H). }
  destruct (getitem response "results") as [e|pages] eqn:Hpages; simpl.
  { intros H. injection H as <-. intros H. destruct (Hmsg _ H). }
  destruct (iterate pages ≫= filter_comp is_current) as [e|kept] eqn:Hkept; simpl.
  { intros H. injection H as <-. intros H. destruct (Hmsg _ H). }
  destruct response; simpl in Hpages; try discriminate Hpages.
  simpl. intros H. injection H as <-.
  unfold getitem. rewrite lookup_insert_eq. intros H. injection H as <-.
  destruct (d !! "results") as [pages'|] eqn:Hd; [| discriminate].
  injection Hpages as ->.
  unfold mbind, Exc_bind in Hkept.
  destruct (iterate pages) as [e|items] eqn:Hitems; [discriminate |].
  apply filter_comp_is_current in Hkept. subst kept.
  exists d, pages, items. repeat split; assumption.
Qed.

(** C3: whatever the remote returns, every page in the [results] of the
    output of [get_available_parents] has the status ["current"]. *)
Theorem get_available_parents_only_current (w : World) (str_exc : Exception → string)
    (request : GetAvailableParentsPayload.t) (log : list Request)
    (out : JSON) (pages : list JSON) (p : JSON) :
  fst (get_available_parents w str_exc request log) = inr out →
  getitem out "results" = inr (JList pages) →
  p ∈ pages →
  getitem p "status" = inr (JStr "current").
Proof.
  intros Hout Hres Hin.
  destruct (get_available_parents_success w str_exc request log out _ Hout Hres)
    as (d & pages0 & items & _ & _ & _ & Hfilter & _).
  injection Hfilter as ->.
  apply list_elem_of_In, filter_In in Hin. destruct Hin as [_ Hcur].
  apply current_status_true, Hcur.
Qed.

Lemma get_available_parents_only_current_witness :
  (fst (get_available_parents (answering (ok two_pages)) plain_str
          {| GetAvailableParentsPayload.space_id := 7 |} []) =
     inr (JDict {[ "results" := JList [ page "1" "current" ];
                   "_links" := JDict {[ "next" :=
                     JStr "/wiki/api/v2/spaces/7/pages?cursor=x" ]} ]}) ∧
   getitem (JDict {[ "results" := JList [ page "1" "current" ];
                     "_links" := JDict {[ "next" :=
                       JStr "/wiki/api/v2/spaces/7/pages?cursor=x" ]} ]}) "results" =
     inr (JList [ page "1" "current" ]) ∧
   page "1" "current" ∈ [ page "1" "current" ]) ∧
  getitem (page "1" "current") "status" = inr (JStr "current").
Proof.
  assert (H1 : fst (get_available_parents (answering (ok two_pages)) plain_str
                      {| GetAvailableParentsPayload.space_id := 7 |} []) =
     inr (JDict {[ "results" := JList [ page "1" "current" ];
                   "_links" := JDict {[ "next" :=
                     JStr "/wiki/api/v2/spaces/7/pages?cursor=x" ]} ]}))
    by (vm_compute; reflexivity).
  assert (H2 : getitem (JDict {[ "results" := JList [ page "1" "current" ];
                     "_links" := JDict {[ "next" :=
                       JStr "/wiki/api/v2/spaces/7/pages?cursor=x" ]} ]}) "results" =
     inr (JList [ page "1" "current" ])) by reflexivity.
  assert (H3 : page "1" "current" ∈ [ page "1" "current" ]) by apply list_elem_of_here.
  split; [repeat split; assumption |].
  exact (get_available_parents_only_current _ _ _ _ _ _ _ H1 H2 H3).
Defined.

(** C8: when [get_available_parents] succeeds (its output has a [results]
    field), the output is the whole response object of the transport: only
    [results] is replaced, by the filtered list, and every other field is
    returned as the transport gave it. *)
Theorem get_available_parents_frame (w : World) (str_exc : Exception → string)
    (request : GetAvailableParentsPayload.t) (log : list Request) (out res : JSON) :
  fst (get_available_parents w str_exc request log) = inr out →
  getitem out "results" = inr res →
  ∃ response pages items,
    fst (get_wrapper w ("/wiki/api/v2/spaces/"
                          +:+ str_int (GetAvailableParentsPayload.space_id request)
                          +:+ "/pages") log) = inr response ∧
    getitem response "results" = inr pages ∧
    iterate pages = inr items ∧
    res = JList (List.filter current_status items) ∧
    setitem response "results" res = inr out ∧
    ∀ field, field ≠ "results" → getitem out field = getitem response field.
Proof.
  intros Hout Hres.
  destruct (get_available_parents_success w str_exc request log out res Hout Hres)
    as (d & pages & items & Hget & Hpages & Hitems & Hfilter & ->).
  exists (JDict d), pages, items.
  split; [exact Hget |]. split; [simpl; rewrite Hpages; reflexivity |].
  split; [exact Hitems |]. split; [exact Hfilter |]. split; [reflexivity |].
  intros field Hne. simpl. rewrite lookup_insert_ne by congruence. reflexivity.
Qed.

Lemma get_available_parents_frame_witness :
  ∃ out res,
    fst (get_available_parents (answering (ok two_pages)) plain_str
           {| GetAvailableParentsPayload.space_id := 7 |} []) = inr out ∧
    getitem out "results" = inr res ∧
    res = JList [ page "1" "current" ] ∧
    getitem out "_links" = getitem two_pages "_links".
Proof.
  eexists _, _.
  assert (H1 : fst (get_available_parents (answering (ok two_pages)) plain_str
                      {| GetAvailableParentsPayload.space_id := 7 |} []) =
     inr (JDict {[ "results" := JList [ page "1" "current" ];
                   "_links" := JDict {[ "next" :=
                     JStr "/wiki/api/v2/spaces/7/pages?cursor=x" ]} ]}))
    by (vm_compute; reflexivity).
  assert (H2 : getitem (JDict {[ "results" := JList [ page "1" "current" ];
                     "_links" := JDict {[ "next" :=
                       JStr "/wiki/api/v2/spaces/7/pages?cursor=x" ]} ]}) "results" =
     inr (JList [ page "1" "current" ])) by reflexivity.
  split; [exact H1 |]. split; [exact H2 |]. split; [reflexivity |].
  destruct (get_available_parents_frame _ _ _ _ _ _ H1 H2)
    as (response & pages & items & Hget & _ & _ & _ & _ & Hframe).
  rewrite Hframe by discriminate.
  assert (Hresp : response = two_pages).
  { vm_compute in Hget. injection Hget as <-. vm_compute. reflexivity. }
  rewrite Hresp. reflexivity.
Defined.

(** ** Validation of the payload *)

Lemma required_absent {T} (validator : JSON → option T) (obj : gmap string JSON)
    (name : string) :
  obj !! name = None → required validator obj name = inl name.
Proof. intros H. unfold required. rewrite H. reflexivity. Qed.

(** A failed validation ends the call before the action's body runs. *)
Lemma call_invalid {T R} (model : string) (init : gmap string JSON → Exc T)
    (action : T → M R) (wrap : R → Result) (payload : JSON) (e : Exception)
    (log : list Request) :
  from_dict model init payload = inl e →
  call model init action wrap payload log = (inl e, log).
Proof.
  intros H. unfold call, mbind, M_bind, lift. rewrite H. reflexivity.
Qed.

Lemma CreatePageRequest_missing (P : Pydantic) (obj : gmap string JSON)
    (field : string) :
  field = "spaceId" ∨ field = "body" →
  obj !! field = None →
  ∃ errs, CreatePageRequest_init P obj = inl (ValidationError "CreatePageRequest" errs) ∧
          field ∈ errs.
Proof.
  intros [-> | ->] Habsent; unfold CreatePageRequest_init;
    rewrite (required_absent _ obj _ Habsent).
  - eexists. split; [reflexivity |]. apply list_elem_of_here.
  - destruct (required _ obj "spaceId"), (optional _ _ obj "title"),
      (optional _ _ obj "parentId");
      (eexists; split; [reflexivity |]); simpl;
      repeat first [apply list_elem_of_here | apply list_elem_of_further].
Qed.

Lemma single_field_missing {T U} (validator : JSON → option T) (build : T → U)
    (model : string) (obj : gmap string JSON) (field : string) :
  obj !! field = None →
  match required validator obj field with
  | inr x => inr (build x)
  | r => inl (ValidationError model (errors r))
  end = (inl (ValidationError model [field]) : Exc U).
Proof. intros Habsent. rewrite (required_absent _ obj _ Habsent). reflexivity. Qed.

(** C7: for every action, when a required field of the payload is absent
    the call fails with a [ValidationError] that names the field, and no
    request has been sent. *)
Theorem execute_missing_field (w : World) (P : Pydantic)
    (str_exc : Exception → string) (a : Action) (obj : gmap string JSON)
    (field : string) (log : list Request) :
  field ∈ required_fields a →
  obj !! field = None →
  ∃ model errs,
    execute w P str_exc a (JDict obj) log = (inl (ValidationError model errs), log) ∧
    field ∈ errs.
Proof.
  intros Hin Habsent.
  destruct a; simpl in Hin; unfold execute;
    try (apply elem_of_nil in Hin; destruct Hin);
    try (apply list_elem_of_singleton in Hin; subst field).
  - assert (Hfield : field = "spaceId" ∨ field = "body").
    { apply elem_of_cons in Hin. destruct Hin as [Hin | Hin]; [left; exact Hin |].
      right. apply list_elem_of_singleton, Hin. }
    destruct (CreatePageRequest_missing P obj field Hfield Habsent)
      as (errs & Hinit & Herrs).
    exists "CreatePageRequest", errs.
    split; [apply call_invalid; exact Hinit | exact Herrs].
  - exists "ContentId", ["content_id"].
    split; [apply call_invalid; simpl; unfold ContentId_init;
            apply single_field_missing, Habsent | apply list_elem_of_here].
  - exists "SpaceParams", ["space_key"].
    split; [apply call_invalid; simpl; unfold SpaceParams_init;
            apply single_field_missing, Habsent | apply list_elem_of_here].
  - exists "SpaceParams", ["space_key"].
    split; [apply call_invalid; simpl; unfold SpaceParams_init;
            apply single_field_missing, Habsent | apply list_elem_of_here].
  - exists "GetAvailableParentsPayload", ["space_id"].
    split; [apply call_invalid; simpl; unfold GetAvailableParentsPayload_init;
            apply single_field_missing, Habsent | apply list_elem_of_here].
Qed.

Lemma execute_missing_field_witness :
  ("body" ∈ required_fields a_create_page ∧
   ({[ "spaceId" := JStr "7"; "title" := JStr "Notes" ]} : gmap string JSON) !! "body" = None) ∧
  ∃ model errs,
    execute (answering (ok other_space)) exact_types plain_str a_create_page
      (JDict {[ "spaceId" := JStr "7"; "title" := JStr "Notes" ]}) [] =
      (inl (ValidationError model errs), []) ∧
    "body" ∈ errs.
Proof.
  assert (H1 : "body" ∈ required_fields a_create_page)
    by (apply list_elem_of_further, list_elem_of_here).
  assert (H2 : ({[ "spaceId" := JStr "7"; "title" := JStr "Notes" ]}
                  : gmap string JSON) !! "body" = None) by reflexivity.
  split; [split; assumption |].
  exact (execute_missing_field (answering (ok other_space)) exact_types plain_str
           a_create_page _ "body" [] H1 H2).
Defined.

(** * Further properties of the transport and the actions *)

(** ** What is sent *)

Lemma silent_lift {A} (x : Exc A) : silent (lift x).
Proof. intros log. reflexivity. Qed.

Lemma silent_mret {A} (x : A) : silent (mret x : M A).
Proof. intros log. reflexivity. Qed.

Lemma sends_bind {A B} (m : M A) (k : A → M B) (req : Request) :
  sends m req → (∀ x, silent (k x)) → sends (m ≫= k) req.
Proof.
  intros Hm Hk log. specialize (Hm log). unfold mbind, M_bind.
  destruct (m log) as [[e|x] log']; simpl in *; [exact Hm |].
  rewrite Hk. exact Hm.
Qed.

Lemma silent_bind {A B} (m : M A) (k : A → M B) :
  silent m → (∀ x, silent (k x)) → silent (m ≫= k).
Proof.
  intros Hm Hk log. specialize (Hm log). unfold mbind, M_bind.
  destruct (m log) as [[e|x] log']; simpl in *; [exact Hm |].
  rewrite Hk. exact Hm.
Qed.

Lemma sends_try_except {A} (body : M A) (handler : Exception → M A) (req : Request) :
  sends body req → (∀ e, silent (handler e)) → sends (try_except body handler) req.
Proof.
  intros Hm Hh log. specialize (Hm log). unfold try_except.
  destruct (body log) as [[e|x] log']; simpl in *; [| exact Hm].
  rewrite Hh. exact Hm.
Qed.

Lemma get_wrapper_sends (w : World) (endpoint : string) :
  sends (get_wrapper w endpoint) (get_request w endpoint).
Proof. intros log. rewrite get_wrapper_run. reflexivity. Qed.

Lemma post_wrapper_sends (w : World) (endpoint : string)
    (data : option (gmap string JSON)) :
  sends (post_wrapper w endpoint data) (post_request w endpoint data).
Proof. intros log. rewrite post_wrapper_run. reflexivity. Qed.

Ltac solve_sends :=
  repeat first
    [ apply get_wrapper_sends
    | apply post_wrapper_sends
    | apply sends_try_except
    | apply sends_bind
    | apply silent_bind
    | apply silent_lift
    | apply silent_mret
    | intros ? ].

(** The request each action sends once its parameter is built. *)
Lemma action_sends (w : World) (P : Pydantic) (str_exc : Exception → string) :
  (∀ params, sends (create_page w params)
               (post_request w "/wiki/api/v2/pages" (Some (create_page_data params)))) ∧
  (∀ params, sends (get_parent_id w params) (get_request w (content_endpoint params))) ∧
  (∀ params, sends (get_space_id w params) (get_request w (space_endpoint params))) ∧
  (∀ x, sends (get_all_content w P str_exc x) (get_request w "/wiki/rest/api/content")) ∧
  (∀ request, sends (get_space_details w str_exc request)
                (get_request w (space_endpoint request))) ∧
  (∀ x, sends (get_all_spaces w P str_exc x) (get_request w "/wiki/rest/api/space")) ∧
  (∀ request, sends (get_available_parents w str_exc request)
                (get_request w (pages_endpoint request))).
Proof.
  repeat split; intros x;
    unfold create_page, get_parent_id, get_space_id, get_all_content,
      get_space_details, get_all_spaces, get_available_parents,
      get_available_parents_try, content_endpoint, space_endpoint, pages_endpoint;
    solve_sends.
Qed.

Lemma call_sends {T R} (model : string) (init : gmap string JSON → Exc T)
    (action : T → M R) (wrap : R → Result) (payload : JSON) (request : T → Request)
    (log : list Request) :
  (∀ params, sends (action params) (request params)) →
  snd (call model init action wrap payload log) = log ∨
  ∃ params, snd (call model init action wrap payload log) = log ++ [request params].
Proof.
  intros Hsends. unfold call, mbind at 1, M_bind, lift.
  destruct (from_dict model init payload) as [e|params]; [left; reflexivity |].
  right. exists params.
  apply (sends_bind (action params) (λ result, mret (wrap result)) _ (Hsends params)).
  intros x. apply silent_mret.
Qed.

(** Every call of an action sends at most one request.  The request goes to
    the base URL followed by an endpoint; it carries the [Accept] header and
    the Basic [Authorization] of the configured email and token; it is a
    POST exactly for [create_page], and a GET has no body. *)
Theorem execute_one_request (w : World) (P : Pydantic) (str_exc : Exception → string)
    (a : Action) (payload : JSON) (log : list Request) :
  snd (execute w P str_exc a payload log) = log ∨
  ∃ req endpoint,
    snd (execute w P str_exc a payload log) = log ++ [req] ∧
    req_url req = format_opt (get_base_url w) +:+ endpoint ∧
    req_headers req !! "Accept" = Some "application/json" ∧
    req_headers req !! "Authorization" =
      Some (basic_auth (get_confluence_email w) (get_api_token w)) ∧
    (req_method req = POST ↔ a = a_create_page) ∧
    (req_method req = GET → req_data req = None).
Proof.
  destruct (action_sends w P str_exc) as (H1 & H2 & H3 & H4 & H5 & H6 & H7).
  assert (Hget : ∀ endpoint a', a' ≠ a_create_page →
            req_url (get_request w endpoint) = format_opt (get_base_url w) +:+ endpoint ∧
            req_headers (get_request w endpoint) !! "Accept" = Some "application/json" ∧
            req_headers (get_request w endpoint) !! "Authorization" =
              Some (basic_auth (get_confluence_email w) (get_api_token w)) ∧
            (req_method (get_request w endpoint) = POST ↔ a' = a_create_page) ∧
            (req_method (get_request w endpoint) = GET →
             req_data (get_request w endpoint) = None)).
  { intros endpoint a' Ha. repeat split; try discriminate; try reflexivity.
    intros ->. destruct Ha. reflexivity. }
  destruct a; unfold execute.
  - destruct (call_sends "CreatePageRequest" (CreatePageRequest_init P)
                (create_page w) r_json payload _ log H1) as [Hlog | [params Hlog]];
      [left; exact Hlog | right].
    eexists _, _. split; [exact Hlog |].
    repeat split; try reflexivity; discriminate.
  - destruct (call_sends "ContentId" (ContentId_init P)
                (get_parent_id w) r_json payload _ log H2) as [Hlog | [params Hlog]];
      [left; exact Hlog | right].
    eexists _, _. split; [exact Hlog | apply Hget; discriminate].
  - destruct (call_sends "SpaceParams" (SpaceParams_init P)
                (get_space_id w) r_json payload _ log H3) as [Hlog | [params Hlog]];
      [left; exact Hlog | right].
    eexists _, _. split; [exact Hlog | apply Hget; discriminate].
  - right. eexists _, _. split; [| apply Hget; discriminate].
    apply (sends_bind _ (λ result, mret (r_content result)) _ (H4 payload)).
    intros x. apply silent_mret.
  - destruct (call_sends "SpaceParams" (SpaceParams_init P)
                (get_space_details w str_exc) r_json payload _ log H5)
      as [Hlog | [params Hlog]]; [left; exact Hlog | right].
    eexists _, _. split; [exact Hlog | apply Hget; discriminate].
  - right. eexists _, _. split; [| apply Hget; discriminate].
    apply (sends_bind _ (λ result, mret (r_spaces result)) _ (H6 payload)).
    intros x. apply silent_mret.
  - destruct (call_sends "GetAvailableParentsPayload" (GetAvailableParentsPayload_init P)
                (get_available_parents w str_exc) r_json payload _ log H7)
      as [Hlog | [params Hlog]]; [left; exact Hlog | right].
    eexists _, _. split; [exact Hlog | apply Hget; discriminate].
Qed.

(** ** Failures: raised or turned into a result *)

(** When the transport raises [e] (the HTTP client failed, the status was an
    error, or the body did not decode), [create_page], [get_parent_id] and
    [get_space_id] raise [e]; [get_space_details] and
    [get_available_parents] return a dict with the one field [message];
    [get_all_content] and [get_all_spaces] return an empty results list. *)
Theorem transport_failure_policy (w : World) (P : Pydantic)
    (str_exc : Exception → string) (e : Exception) (log : list Request)
    (page : CreatePageRequest.t) (content : ContentId.t) (space : SpaceParams.t)
    (parents : GetAvailableParentsPayload.t) (x : JSON) :
  (fst (post_wrapper w "/wiki/api/v2/pages" (Some (create_page_data page)) log) = inl e →
   fst (create_page w page log) = inl e) ∧
  (fst (get_wrapper w (content_endpoint content) log) = inl e →
   fst (get_parent_id w content log) = inl e) ∧
  (fst (get_wrapper w (space_endpoint space) log) = inl e →
   fst (get_space_id w space log) = inl e ∧
   fst (get_space_details w str_exc space log) = inr (message_of str_exc e)) ∧
  (fst (get_wrapper w (pages_endpoint parents) log) = inl e →
   fst (get_available_parents w str_exc parents log) = inr (message_of str_exc e)) ∧
  (fst (get_wrapper w "/wiki/rest/api/content" log) = inl e →
   fst (get_all_content w P str_exc x log) =
     inr {| GetAllContentResponse.results := [] |}) ∧
  (fst (get_wrapper w "/wiki/rest/api/space" log) = inl e →
   fst (get_all_spaces w P str_exc x log) =
     inr {| GetAllSpacesResponse.results := [] |}).
Proof.
  unfold create_page, get_parent_id, get_space_id, get_space_details,
    get_available_parents, get_available_parents_try, get_all_content,
    get_all_spaces, try_except, content_endpoint, space_endpoint, pages_endpoint.
  unfold mbind, M_bind.
  repeat split.
  - destruct (post_wrapper w _ _ log) as [[e'|v] log']; simpl; [tauto | discriminate].
  - tauto.
  - exact H.
  - destruct (get_wrapper w _ log) as [[e'|v] log']; simpl in *;
      [injection H as -> | discriminate]; reflexivity.
  - intros H. destruct (get_wrapper w _ log) as [[e'|v] log']; simpl in *;
      [injection H as -> | discriminate]; reflexivity.
  - intros H. destruct (get_wrapper w _ log) as [[e'|v] log']; simpl in *;
      [| discriminate]. reflexivity.
  - intros H. destruct (get_wrapper w _ log) as [[e'|v] log']; simpl in *;
      [| discriminate]. reflexivity.
Qed.

Lemma transport_failure_policy_witness :
  fst (create_page (failing (RequestException "Connection refused")) sample_page []) =
    inl (RequestException "Connection refused") ∧
  fst (get_space_details (failing (RequestException "Connection refused")) plain_str
         {| SpaceParams.space_key := "DEV" |} []) =
    inr (message_of plain_str (RequestException "Connection refused")) ∧
  fst (get_all_spaces (failing (RequestException "Connection refused")) exact_types
         plain_str JNull []) =
    inr {| GetAllSpacesResponse.results := [] |}.
Proof.
  destruct (transport_failure_policy (failing (RequestException "Connection refused"))
              exact_types plain_str (RequestException "Connection refused") []
              sample_page {| ContentId.content_id := "42" |}
              {| SpaceParams.space_key := "DEV" |}
              {| GetAvailableParentsPayload.space_id := 7 |} JNull)
    as (Hpage & _ & Hspace & _ & _ & Hspaces).
  split; [apply Hpage; reflexivity |].
  split; [apply Hspace; reflexivity | apply Hspaces; reflexivity].
Defined.

(** [get_space_details] sends the request of [get_space_id] and returns its
    value; where [get_space_id] raises [e], it returns the dict
    [{"message": str(e)}] instead. *)
Theorem get_space_details_get_space_id (w : World) (str_exc : Exception → string)
    (request : SpaceParams.t) (log : list Request) :
  get_space_details w str_exc request log =
  (match fst (get_space_id w request log) with
   | inr v => inr v
   | inl e => inr (message_of str_exc e)
   end,
   snd (get_space_id w request log)).
Proof.
  unfold get_space_details, get_space_id, try_except, mbind, M_bind.
  destruct (get_wrapper w _ log) as [[e|v] log']; reflexivity.
Qed.

(** ** The 204 response in the GET actions *)



(** ** Configuration *)

(** Nothing checks the configuration: with the base URL, the email and the
    token all unset, the request still goes out, to the URL ["None"]
    followed by the endpoint and with the credentials ["None:None"]. *)
Theorem unset_configuration (w : World) (method : Method) (endpoint : string)
    (data : option (gmap string JSON)) (log : list Request) :
  environ w !! "CONFLUENCE_BASE_URL" = None →
  environ w !! "CONFLUENCE_EMAIL" = None →
  secrets w !! "JIRA_API_TOKEN" = None →
  ∃ req, snd (transport w method endpoint data log) = log ++ [req] ∧
         req_url req = "None" +:+ endpoint ∧
         req_headers req !! "Authorization" = Some "Basic Tm9uZTpOb25l".
Proof.
  intros Hurl Hemail Htoken.
  exists (transport_request w method endpoint data).
  destruct method; simpl.
  - split; [apply get_wrapper_sends |].
    unfold get_request, get_base_url, get_confluence_email, get_api_token.
    rewrite Hurl, Hemail, Htoken. split; reflexivity.
  - split; [apply post_wrapper_sends |].
    unfold post_request, get_base_url, get_confluence_email, get_api_token.
    rewrite Hurl, Hemail, Htoken. split; reflexivity.
Qed.

Lemma unset_configuration_witness :
  (environ (unconfigured no_content) !! "CONFLUENCE_BASE_URL" = None ∧
   environ (unconfigured no_content) !! "CONFLUENCE_EMAIL" = None ∧
   secrets (unconfigured no_content) !! "JIRA_API_TOKEN" = None) ∧
  ∃ req, snd (transport (unconfigured no_content) GET "/wiki/rest/api/space" None []) =
           [] ++ [req] ∧
         req_url req = "None" +:+ "/wiki/rest/api/space" ∧
         req_headers req !! "Authorization" = Some "Basic Tm9uZTpOb25l".
Proof.
  split; [repeat split |].
  apply (unset_configuration (unconfigured no_content) GET "/wiki/rest/api/space" None []);
    reflexivity.
Defined.

(** The transport reads three settings only: two sites that agree on the
    base URL, the email and the token, and whose remotes answer alike, give
    the same run of every GET and POST. *)
Theorem transport_reads_three_settings (w1 w2 : World) (method : Method)
    (endpoint : string) (data : option (gmap string JSON)) (log : list Request) :
  environ w1 !! "CONFLUENCE_BASE_URL" = environ w2 !! "CONFLUENCE_BASE_URL" →
  environ w1 !! "CONFLUENCE_EMAIL" = environ w2 !! "CONFLUENCE_EMAIL" →
  secrets w1 !! "JIRA_API_TOKEN" = secrets w2 !! "JIRA_API_TOKEN" →
  (∀ req, send w1 req = send w2 req) →
  transport w1 method endpoint data log = transport w2 method endpoint data log.
Proof.
  intros Hurl Hemail Htoken Hsend.
  assert (Hreq : transport_request w1 method endpoint data =
                 transport_request w2 method endpoint data).
  { destruct method; simpl;
      unfold get_request, post_request, get_base_url, get_confluence_email,
        get_api_token;
      rewrite Hurl, Hemail, Htoken; reflexivity. }
  destruct method; simpl in *.
  - rewrite !get_wrapper_run, Hreq, Hsend. reflexivity.
  - rewrite !post_wrapper_run, Hreq, Hsend. reflexivity.
Qed.

Lemma transport_reads_three_settings_witness :
  transport
    {| environ := <["HOME" := "/root"]> (environ (answering no_content));
       secrets := <["OTHER_TOKEN" := "x"]> (secrets (answering no_content));
       send := λ _, inr no_content |}
    GET "/wiki/rest/api/space" None [] =
  transport (answering no_content) GET "/wiki/rest/api/space" None [].
Proof.
  apply transport_reads_three_settings; first [reflexivity | intros req; reflexivity].
Defined.

(** ** The body of a POST *)

Lemma dumps_if_none (data : option (gmap string JSON)) :
  dumps_if data = None ↔ data = None ∨ data = Some ∅.
Proof.
  unfold dumps_if.
  destruct data as [d|]; [| split; [left; reflexivity | reflexivity]].
  case_bool_decide as Hsize.
  - split; [discriminate |]. intros [H | H]; [discriminate |].
    injection H as ->. destruct Hsize. apply map_size_empty.
  - split; [| reflexivity]. intros _. right. f_equal.
    apply map_size_empty_iff. destruct (decide (size d = 0%nat)); [assumption |].
    contradiction.
Qed.

(** Whatever the remote answers, a call of [post_wrapper] sends one POST to
    the base URL followed by the endpoint, always with the header
    [Content-Type: application/json]; the request has no body exactly when
    [data] is [None] or the empty dict, and carries any other dict as its
    document. *)
Theorem post_wrapper_body (w : World) (endpoint : string)
    (data : option (gmap string JSON)) (log : list Request) :
  ∃ req,
    snd (post_wrapper w endpoint data log) = log ++ [req] ∧
    req_method req = POST ∧
    req_url req = format_opt (get_base_url w) +:+ endpoint ∧
    req_headers req !! "Content-Type" = Some "application/json" ∧
    (req_data req = None ↔ data = None ∨ data = Some ∅) ∧
    (∀ d, data = Some d → d ≠ ∅ → req_data req = Some (JDict d)).
Proof.
  exists (post_request w endpoint data).
  split; [apply post_wrapper_sends |].
  split; [reflexivity |]. split; [reflexivity |]. split; [reflexivity |].
  split; [apply dumps_if_none |].
  intros d -> Hne. simpl. unfold dumps_if.
  case_bool_decide as Hsize; [reflexivity |].
  destruct Hne. apply map_size_empty_iff.
  destruct (decide (size d = 0%nat)); [assumption | contradiction].
Qed.

Lemma post_wrapper_body_witness :
  ∃ req,
    snd (post_wrapper (answering no_content) "/wiki/api/v2/pages"
           (Some {[ "title" := JStr "Notes" ]}) []) = [req] ∧
    req_data req = Some (JDict {[ "title" := JStr "Notes" ]}).
Proof.
  destruct (post_wrapper_body (answering no_content) "/wiki/api/v2/pages"
              (Some {[ "title" := JStr "Notes" ]}) [])
    as (req & Hlog & _ & _ & _ & _ & Hdata).
  exists req. split; [exact Hlog |].
  apply Hdata; [reflexivity | apply map_non_empty_singleton].
Defined.

(** ** Listings: one record per entry, or none at all *)

(** When the remote answers with a list of spaces, [get_all_spaces] returns
    one [SpaceSummary] per entry, in the order of the entries; but if one
    entry cannot be turned into a [SpaceSummary] (it is no dict, lacks one
    of the five fields, or a field is refused), the whole result is empty. *)
Theorem get_all_spaces_all_or_nothing (w : World) (P : Pydantic)
    (str_exc : Exception → string) (x : JSON) (log : list Request)
    (r : Response) (body : JSON) (spaces : list JSON) :
  send w (get_request w "/wiki/rest/api/space") = inr r →
  ¬ 400 ≤ status_code r ≤ 599 →
  status_code r ≠ 204 →
  json r = Some body →
  getitem body "results" = inr (JList spaces) →
  ∃ results,
    fst (get_all_spaces w P str_exc x log) =
      inr {| GetAllSpacesResponse.results := results |} ∧
    (Forall2 (λ space summary, space_summary P space = inr summary) spaces results ∨
     results = [] ∧ ∃ space e, space ∈ spaces ∧ space_summary P space = inl e).
Proof.
  intros Hsend Hst H204 Hjson Hresults.
  unfold get_all_spaces, try_except. unfold mbind at 1 2 3, M_bind, lift.
  rewrite get_wrapper_run, Hsend.
  rewrite raise_for_status_pass by assumption.
  case_bool_decide; [| contradiction].
  unfold response_json. rewrite Hjson.
  unfold mbind, Exc_bind. rewrite Hresults. simpl.
  pose proof (map_comp_outcome (space_summary P) spaces) as Hmap.
  destruct (map_comp (space_summary P) spaces) as [e|results].
  - exists []. split; [reflexivity |]. right. split; [reflexivity |].
    destruct Hmap as (space & Hin & Hspace). exists space, e. split; assumption.
  - exists results. split; [reflexivity |]. left. exact Hmap.
Qed.

Lemma get_all_spaces_all_or_nothing_witness :
  ∃ results,
    fst (get_all_spaces (answering (ok one_space)) exact_types plain_str JNull []) =
      inr {| GetAllSpacesResponse.results := results |} ∧
    (Forall2 (λ space summary, space_summary exact_types space = inr summary)
       [described_space] results ∨
     results = [] ∧
     ∃ space e, space ∈ [described_space] ∧ space_summary exact_types space = inl e).
Proof.
  apply (get_all_spaces_all_or_nothing (answering (ok one_space)) exact_types plain_str
           JNull [] (ok one_space) one_space [described_space]);
    first [reflexivity | simpl; lia].
Defined.

(** An entry whose five fields are strings gives the [SpaceSummary] with
    those five values and no description, under any validator that accepts
    a string as it is. *)
Theorem space_summary_fields (P : Pydantic) (d : gmap string JSON)
    (id key name type status : string) :
  (∀ s, str_validator P (JStr s) = Some s) →
  d !! "id" = Some (JStr id) →
  d !! "key" = Some (JStr key) →
  d !! "name" = Some (JStr name) →
  d !! "type" = Some (JStr type) →
  d !! "status" = Some (JStr status) →
  space_summary P (JDict d) =
  inr {| SpaceSummary.id := id; SpaceSummary.key := key; SpaceSummary.name := name;
         SpaceSummary.type := type; SpaceSummary.status := status;
         SpaceSummary.description := None |}.
Proof.
  intros Hstr Hid Hkey Hname Htype Hstatus.
  unfold space_summary, getitem, mbind, Exc_bind.
  rewrite Hid, Hkey, Hname, Htype, Hstatus.
  unfold SpaceSummary_init, required, optional_default.
  rewrite lookup_insert_eq.
  repeat (rewrite lookup_insert_ne by discriminate; rewrite ?lookup_insert_eq).
  rewrite ?lookup_singleton_eq, ?lookup_singleton_ne by discriminate.
  rewrite !Hstr. reflexivity.
Qed.

Lemma space_summary_fields_witness :
  space_summary exact_types described_space =
  inr {| SpaceSummary.id := "1"; SpaceSummary.key := "S1";
         SpaceSummary.name := "Space One"; SpaceSummary.type := "global";
         SpaceSummary.status := "current"; SpaceSummary.description := None |}.
Proof.
  apply (space_summary_fields exact_types); first [intros s; reflexivity | reflexivity].
Defined.

(** When the remote answers with a list of contents, [get_all_content]
    returns one [ContentSummary] per entry, in order, or, if one entry does
    not validate, an empty list. *)
Theorem get_all_content_all_or_nothing (w : World) (P : Pydantic)
    (str_exc : Exception → string) (x : JSON) (log : list Request)
    (r : Response) (body : JSON) (items : list JSON) :
  send w (get_request w "/wiki/rest/api/content") = inr r →
  ¬ 400 ≤ status_code r ≤ 599 →
  status_code r ≠ 204 →
  json r = Some body →
  getitem body "results" = inr (JList items) →
  ∃ results,
    fst (get_all_content w P str_exc x log) =
      inr {| GetAllContentResponse.results := results |} ∧
    (Forall2 (λ item summary,
        from_dict "ContentSummary" (ContentSummary_init P) item = inr summary)
       items results ∨
     results = [] ∧
     ∃ item e, item ∈ items ∧
               from_dict "ContentSummary" (ContentSummary_init P) item = inl e).
Proof.
  intros Hsend Hst H204 Hjson Hresults.
  unfold get_all_content, try_except. unfold mbind at 1 2, M_bind, lift.
  rewrite get_wrapper_run, Hsend.
  rewrite raise_for_status_pass by assumption.
  case_bool_decide; [| contradiction].
  unfold response_json. rewrite Hjson, Hresults.
  unfold GetAllContentResponse_init.
  pose proof (map_comp_outcome (from_dict "ContentSummary" (ContentSummary_init P)) items)
    as Hmap.
  destruct (map_comp _ items) as [e|results].
  - exists []. split; [reflexivity |]. right. split; [reflexivity |].
    destruct Hmap as (item & Hin & Hitem). exists item, e. split; assumption.
  - exists results. split; [reflexivity |]. left. exact Hmap.
Qed.

Lemma get_all_content_all_or_nothing_witness :
  ∃ results,
    fst (get_all_content
           (answering (ok (JDict {[ "results" := JList [ JInt 3 ] ]})))
           exact_types plain_str JNull []) =
      inr {| GetAllContentResponse.results := results |} ∧
    (Forall2 (λ item summary,
        from_dict "ContentSummary" (ContentSummary_init exact_types) item = inr summary)
       [ JInt 3 ] results ∨
     results = [] ∧
     ∃ item e, item ∈ [ JInt 3 ] ∧
               from_dict "ContentSummary" (ContentSummary_init exact_types) item = inl e).
Proof.
  apply (get_all_content_all_or_nothing
           (answering (ok (JDict {[ "results" := JList [ JInt 3 ] ]})))
           exact_types plain_str JNull []
           (ok (JDict {[ "results" := JList [ JInt 3 ] ]}))
           (JDict {[ "results" := JList [ JInt 3 ] ]}) [ JInt 3 ]);
    first [reflexivity | simpl; lia].
Defined.

(** ** get_available_parents: what is kept, and what makes it fail *)

Lemma current_status_iff (p : JSON) :
  current_status p = true ↔ getitem p "status" = inr (JStr "current").
Proof.
  split; [apply current_status_true |].
  intros H. unfold current_status. rewrite H. reflexivity.
Qed.

(** On success the pages of the output are exactly the pages of the
    response whose status is ["current"]: none is added and no current page
    is lost. *)
Theorem get_available_parents_exact (w : World) (str_exc : Exception → string)
    (request : GetAvailableParentsPayload.t) (log : list Request)
    (out : JSON) (kept : list JSON) :
  fst (get_available_parents w str_exc request log) = inr out →
  getitem out "results" = inr (JList kept) →
  ∃ response pages items,
    fst (get_wrapper w (pages_endpoint request) log) = inr response ∧
    getitem response "results" = inr pages ∧
    iterate pages = inr items ∧
    ∀ p, p ∈ kept ↔ p ∈ items ∧ getitem p "status" = inr (JStr "current").
Proof.
  intros Hout Hres.
  destruct (get_available_parents_success w str_exc request log out _ Hout Hres)
    as (d & pages & items & Hget & Hpages & Hitems & Hfilter & _).
  exists (JDict d), pages, items.
  split; [exact Hget |]. split; [simpl; rewrite Hpages; reflexivity |].
  split; [exact Hitems |].
  injection Hfilter as ->. intros p.
  rewrite !list_elem_of_In, filter_In, current_status_iff. reflexivity.
Qed.

Lemma get_available_parents_exact_witness :
  ∃ response pages items,
    fst (get_wrapper (answering (ok two_pages))
           (pages_endpoint {| GetAvailableParentsPayload.space_id := 7 |}) []) =
      inr response ∧
    getitem response "results" = inr pages ∧
    iterate pages = inr items ∧
    ∀ p, p ∈ [ page "1" "current" ] ↔
         p ∈ items ∧ getitem p "status" = inr (JStr "current").
Proof.
  apply (get_available_parents_exact (answering (ok two_pages)) plain_str
           {| GetAvailableParentsPayload.space_id := 7 |} []
           (JDict {[ "results" := JList [ page "1" "current" ];
                     "_links" := JDict {[ "next" :=
                       JStr "/wiki/api/v2/spaces/7/pages?cursor=x" ]} ]}));
    [vm_compute; reflexivity | reflexivity].
Defined.

Lemma is_current_dict (d : gmap string JSON) :
  is_current (JDict d) =
  match d !! "status" with
  | Some status => inr (eq_str status "current")
  | None => inl (KeyError "status")
  end.
Proof.
  unfold is_current, getitem, mbind, Exc_bind, mret, Exc_ret.
  destruct (d !! "status"); reflexivity.
Qed.

Lemma filter_comp_missing_status (pages : list JSON) :
  Forall is_dict pages →
  (∃ p, p ∈ pages ∧ getitem p "status" = inl (KeyError "status")) →
  filter_comp is_current pages = inl (KeyError "status").
Proof.
  intros Hdicts. induction Hdicts as [|p pages [d ->] _ IH]; intros (q & Hin & Hq).
  - apply elem_of_nil in Hin. destruct Hin.
  - cbn [filter_comp]. rewrite is_current_dict.
    destruct (d !! "status") as [status|] eqn:Hd; [| reflexivity].
    apply elem_of_cons in Hin. destruct Hin as [-> | Hin].
    + simpl in Hq. rewrite Hd in Hq. discriminate.
    + rewrite IH; [reflexivity |]. exists q. split; assumption.
Qed.

(** One page without a [status] field fails the whole call: when the
    response lists dicts and one of them has no [status], the output is the
    message of the [KeyError] and no page is returned. *)
Theorem get_available_parents_missing_status (w : World) (str_exc : Exception → string)
    (request : GetAvailableParentsPayload.t) (log : list Request)
    (r : Response) (body : JSON) (pages : list JSON) (p : JSON) :
  send w (get_request w (pages_endpoint request)) = inr r →
  ¬ 400 ≤ status_code r ≤ 599 →
  status_code r ≠ 204 →
  json r = Some body →
  getitem body "results" = inr (JList pages) →
  Forall is_dict pages →
  p ∈ pages →
  getitem p "status" = inl (KeyError "status") →
  fst (get_available_parents w str_exc request log) =
    inr (message_of str_exc (KeyError "status")).
Proof.
  intros Hsend Hst H204 Hjson Hresults Hdicts Hin Hp.
  unfold get_available_parents, get_available_parents_try, try_except.
  unfold mbind at 1 2 3, M_bind, lift. fold (pages_endpoint request).
  rewrite get_wrapper_run, Hsend.
  rewrite raise_for_status_pass by assumption.
  case_bool_decide; [| contradiction].
  unfold response_json. rewrite Hjson, Hresults.
  unfold mbind, Exc_bind. simpl.
  rewrite (filter_comp_missing_status pages Hdicts); [reflexivity |].
  exists p. split; assumption.
Qed.

Lemma get_available_parents_missing_status_witness :
  fst (get_available_parents
         (answering (ok (JDict {[ "results" :=
            JList [ page "1" "current"; JDict {[ "id" := JStr "2" ]} ] ]})))
         plain_str {| GetAvailableParentsPayload.space_id := 7 |} []) =
    inr (message_of plain_str (KeyError "status")).
Proof.
  apply (get_available_parents_missing_status _ plain_str
           {| GetAvailableParentsPayload.space_id := 7 |} []
           (ok (JDict {[ "results" :=
              JList [ page "1" "current"; JDict {[ "id" := JStr "2" ]} ] ]}))
           (JDict {[ "results" :=
              JList [ page "1" "current"; JDict {[ "id" := JStr "2" ]} ] ]})
           [ page "1" "current"; JDict {[ "id" := JStr "2" ]} ]
           (JDict {[ "id" := JStr "2" ]}));
    first [reflexivity | simpl; lia | idtac].
  - repeat constructor; eexists; reflexivity.
  - apply list_elem_of_further, list_elem_of_here.
Defined.

(** ** create_page: the document and the outcome *)

(** Whatever the remote answers, the one request [create_page] sends
    carries a document with exactly the five fields [spaceId], [status],
    [title], [parentId] and [body]; [spaceId] is the request's, and an
    absent title or parent is sent as an explicit null, not left out. *)
Theorem create_page_document (w : World) (params : CreatePageRequest.t)
    (log : list Request) :
  ∃ req d,
    snd (create_page w params log) = log ++ [req] ∧
    req_data req = Some (JDict d) ∧
    dom d = ({[ "spaceId"; "status"; "title"; "parentId"; "body" ]} : gset string) ∧
    d !! "spaceId" = Some (JStr (CreatePageRequest.spaceId params)) ∧
    d !! "title" =
      Some (match CreatePageRequest.title params with
            | Some title => JStr title
            | None => JNull
            end) ∧
    d !! "parentId" =
      Some (match CreatePageRequest.parentId params with
            | Some parent => JStr parent
            | None => JNull
            end).
Proof.
  exists (post_request w "/wiki/api/v2/pages" (Some (create_page_data params))),
         (create_page_data params).
  split; [apply create_page_requests |].
  split; [exact (create_page_data_truthy params) |].
  split; [| repeat split; reflexivity].
  unfold create_page_data.
  rewrite !dom_insert_L, dom_singleton_L. reflexivity.
Qed.

(** [create_page] returns what the remote's body decodes to, raises the
    [HTTPError] on a status in 400-599 and the decoding error on a body
    that is no JSON; it never turns a failure into a result. *)
Theorem create_page_outcome (w : World) (params : CreatePageRequest.t)
    (r : Response) (log : list Request) :
  send w (post_request w "/wiki/api/v2/pages" (Some (create_page_data params))) = inr r →
  fst (create_page w params log) =
    if bool_decide (400 ≤ status_code r ≤ 599) then inl (HTTPError r)
    else match json r with
         | Some v => inr v
         | None => inl JSONDecodeError
         end.
Proof.
  intros Hsend. unfold create_page, mbind, M_bind.
  rewrite post_wrapper_run, Hsend.
  case_bool_decide as Hst.
  - rewrite raise_for_status_error by assumption. reflexivity.
  - rewrite raise_for_status_pass by assumption. unfold response_json.
    destruct (json r); reflexivity.
Qed.

Lemma create_page_outcome_witness :
  fst (create_page (answering (ok other_space)) sample_page []) = inr other_space.
Proof.
  apply (create_page_outcome (answering (ok other_space)) sample_page
           (ok other_space) []).
  reflexivity.
Defined.

(** A payload key that [CreatePageRequest] does not declare changes
    nothing: the call behaves as without it. *)
Theorem create_page_ignores_undeclared (w : World) (P : Pydantic)
    (str_exc : Exception → string) (obj : gmap string JSON) (key : string)
    (v : JSON) (log : list Request) :
  key ∉ [ "spaceId"; "title"; "parentId"; "body" ] →
  execute w P str_exc a_create_page (JDict (<[key := v]> obj)) log =
  execute w P str_exc a_create_page (JDict obj) log.
Proof.
  intros Hkey.
  assert (Hlookup : ∀ field, field ∈ [ "spaceId"; "title"; "parentId"; "body" ] →
                             <[key := v]> obj !! field = obj !! field).
  { intros field Hfield. apply lookup_insert_ne. intros ->. contradiction. }
  unfold execute, call, from_dict, CreatePageRequest_init, required, optional.
  rewrite !Hlookup by (repeat first [apply list_elem_of_here | apply list_elem_of_further]).
  reflexivity.
Qed.

Lemma create_page_ignores_undeclared_witness :
  execute (answering (ok other_space)) exact_types plain_str a_create_page
    (JDict (<["status" := JStr "draft"]>
              {[ "spaceId" := JStr "7"; "body" := JStr "<p>Hello</p>" ]})) [] =
  execute (answering (ok other_space)) exact_types plain_str a_create_page
    (JDict {[ "spaceId" := JStr "7"; "body" := JStr "<p>Hello</p>" ]}) [].
Proof.
  apply create_page_ignores_undeclared.
  intros Hin. repeat (apply elem_of_cons in Hin; destruct Hin as [Hin | Hin];
                      [discriminate Hin |]).
  apply elem_of_nil in Hin. exact Hin.
Defined.

(** ** get_parent_id *)

(** [get_parent_id] performs exactly one request, a GET to the base URL
    followed by [/wiki/rest/api/content/{id}?expand=ancestors], and returns
    what the transport returns: the decoded body, or [None] on 204. *)
Theorem get_parent_id_one_get (w : World) (params : ContentId.t) (log : list Request) :
  ∃ req,
    snd (get_parent_id w params log) = log ++ [req] ∧
    req_method req = GET ∧
    req_url req = format_opt (get_base_url w) +:+ "/wiki/rest/api/content/"
                    +:+ ContentId.content_id params +:+ "?expand=ancestors" ∧
    ∀ r, send w req = inr r →
         ¬ 400 ≤ status_code r ≤ 599 →
         fst (get_parent_id w params log) =
           if bool_decide (status_code r = 204) then inr JNull
           else match json r with
                | Some v => inr v
                | None => inl JSONDecodeError
                end.
Proof.
  exists (get_request w (content_endpoint params)).
  unfold get_parent_id. fold (content_endpoint params). rewrite get_wrapper_run.
  repeat split.
  intros r Hsend Hst. simpl. rewrite Hsend.
  rewrite raise_for_status_pass by assumption.
  unfold response_json.
  repeat case_bool_decide; try contradiction; destruct (json r); reflexivity.
Qed.

Lemma get_parent_id_one_get_witness :
  ∃ req,
    snd (get_parent_id (answering (ok other_space)) {| ContentId.content_id := "42" |} [])
      = [req] ∧
    req_url req =
      "https://example.atlassian.net/wiki/rest/api/content/42?expand=ancestors" ∧
    fst (get_parent_id (answering (ok other_space)) {| ContentId.content_id := "42" |} [])
      = inr other_space.
Proof.
  destruct (get_parent_id_one_get (answering (ok other_space))
              {| ContentId.content_id := "42" |} [])
    as (req & Hlog & _ & Hurl & Hres).
  exists req. split; [exact Hlog |]. split; [exact Hurl |].
  apply (Hres (ok other_space)); [| simpl; lia].
  injection Hlog as <-. reflexivity.
Defined.

(** ** The space id in the URL of get_available_parents *)

(** [str(n)] reads back as [n]. *)
Lemma str_int_read_back (z : Z) :
  Z.of_int <$> NilZero.int_of_string (str_int z) = Some z.
Proof.
  unfold str_int. rewrite NilZero.isi.
  - simpl. f_equal. apply DecimalZ.of_to.
  - destruct z; simpl; try discriminate.
    intros H. injection H as H. exact (DecimalPos.Unsigned.to_uint_nonnil _ H).
  - destruct z; simpl; try discriminate.
    intros H. injection H as H. exact (DecimalPos.Unsigned.to_uint_nonnil _ H).
Qed.

Lemma string_length_app (a b : string) :
  String.length (a +:+ b) = (String.length a + String.length b)%nat.
Proof. induction a as [|c a IH]; simpl; [reflexivity | rewrite IH; reflexivity]. Qed.

Lemma string_app_inv_tail (a b s : string) : a +:+ s = b +:+ s → a = b.
Proof.
  revert b. induction a as [|c a IH]; intros [|c' b] H; simpl in H.
  - reflexivity.
  - apply (f_equal String.length) in H.
    rewrite ?string_length_app in H. simpl in H.
    rewrite ?string_length_app in H. lia.
  - apply (f_equal String.length) in H.
    rewrite ?string_length_app in H. simpl in H.
    rewrite ?string_length_app in H. lia.
  - injection H as -> H. f_equal. apply IH, H.
Qed.

(** Two calls of [get_available_parents] address the same URL only for the
    same space id: the decimal rendering of the id, sign included, can be
    read back from the URL. *)
Theorem pages_url_determines_space (w : World)
    (request1 request2 : GetAvailableParentsPayload.t) :
  req_url (get_request w (pages_endpoint request1)) =
  req_url (get_request w (pages_endpoint request2)) →
  GetAvailableParentsPayload.space_id request1 =
  GetAvailableParentsPayload.space_id request2.
Proof.
  simpl. unfold pages_endpoint. intros H.
  apply (inj (String.append _)) in H.
  apply (inj (String.append _)) in H.
  apply string_app_inv_tail in H.
  pose proof (str_int_read_back (GetAvailableParentsPayload.space_id request1)) as H1.
  pose proof (str_int_read_back (GetAvailableParentsPayload.space_id request2)) as H2.
  rewrite H, H2 in H1. injection H1 as H1. symmetry. exact H1.
Qed.

Lemma pages_url_determines_space_witness :
  GetAvailableParentsPayload.space_id {| GetAvailableParentsPayload.space_id := -7 |} =
  GetAvailableParentsPayload.space_id {| GetAvailableParentsPayload.space_id := -7 |}.
Proof.
  apply (pages_url_determines_space (answering no_content)). reflexivity.
Defined.

(** ** get_available_parents: when it succeeds *)

Lemma filter_comp_all_have_status (pages : list JSON) :
  Forall (λ p, ∃ status, getitem p "status" = inr status) pages →
  filter_comp is_current pages = inr (List.filter current_status pages).
Proof.
  induction 1 as [|p pages [status Hp] _ IH]; [reflexivity |].
  cbn [filter_comp List.filter]. rewrite IH.
  unfold is_current, current_status. rewrite Hp. reflexivity.
Qed.

(** When the response is a dict whose [results] is a list of pages that all
    have a [status], [get_available_parents] succeeds: it returns the
    response with [results] narrowed to the current pages, in their order,
    and no [message]. *)
Theorem get_available_parents_succeeds (w : World) (str_exc : Exception → string)
    (request : GetAvailableParentsPayload.t) (log : list Request)
    (r : Response) (d : gmap string JSON) (pages : list JSON) :
  send w (get_request w (pages_endpoint request)) = inr r →
  ¬ 400 ≤ status_code r ≤ 599 →
  status_code r ≠ 204 →
  json r = Some (JDict d) →
  d !! "results" = Some (JList pages) →
  Forall (λ p, ∃ status, getitem p "status" = inr status) pages →
  fst (get_available_parents w str_exc request log) =
    inr (JDict (<["results" := JList (List.filter current_status pages)]> d)).
Proof.
  intros Hsend Hst H204 Hjson Hresults Hpages.
  unfold get_available_parents, get_available_parents_try, try_except.
  unfold mbind at 1 2 3, M_bind, lift. fold (pages_endpoint request).
  rewrite get_wrapper_run, Hsend.
  rewrite raise_for_status_pass by assumption.
  case_bool_decide; [| contradiction].
  unfold response_json. rewrite Hjson. simpl. rewrite Hresults.
  unfold mbind, Exc_bind. simpl.
  rewrite (filter_comp_all_have_status pages Hpages). reflexivity.
Qed.

Lemma get_available_parents_succeeds_witness :
  fst (get_available_parents (answering (ok two_pages)) plain_str
         {| GetAvailableParentsPayload.space_id := 7 |} []) =
    inr (JDict (<["results" :=
                    JList (List.filter current_status
                             [ page "1" "current"; page "2" "draft" ])]>
                  {[ "results" := JList [ page "1" "current"; page "2" "draft" ];
                     "_links" := JDict {[ "next" :=
                       JStr "/wiki/api/v2/spaces/7/pages?cursor=x" ]} ]})).
Proof.
  apply (get_available_parents_succeeds (answering (ok two_pages)) plain_str
           {| GetAvailableParentsPayload.space_id := 7 |} [] (ok two_pages));
    first [reflexivity | simpl; lia | idtac].
  repeat constructor; eexists; reflexivity.
Defined.
